(** * Climate analysis pipeline: a shallow embedding of [climate_analysis.py]
      and of the result loaders of [app.py] and [visualization.py].

    Numbers.  pandas holds [temperature_c], the group means and the
    latitudes as binary floats.  The tables are read here under exact
    arithmetic: a finite value is a rational ([Q]), the missing value NaN is
    [None]; a standard deviation is the square root of a rational and is
    kept as that radicand ([Sqrt v] stands for the real number [sqrt v]),
    and the two comparisons of the detector are decided on rationals and
    proved to agree with the comparison of real numbers.  Rounding moves
    the computed mean and standard deviation away from the exact ones, and
    with them the two thresholds; so the comparisons are given a second
    time on IEEE doubles ([celsius64], [mean64], [std64], [extreme_hot64],
    [extreme_cold64]), and what is said of a record on a threshold is said
    of those.

    pandas.  [DataFrame.groupby] is called without [observed], so the
    default of the installed pandas decides: [observed=False] in pandas 1.x
    and 2.x, where a categorical key (here [region] and [season], produced
    by [pd.cut]) contributes all of its categories to the result and two
    keys give the product of their levels, and [observed=True] from pandas
    3, where only the groups that occur are kept.  The group-by functions
    take [observed] as an argument; [annual_regional_avg], [seasonal_avg],
    [decadal_avg] and [extreme_counts] are the tables under
    [observed=False], and the statement on a region without baseline is
    made for both. *)

From Stdlib Require Import ZArith QArith Qreals Reals Lqa Lra Lia SpecFloat.
From Stdlib Require Import List Sorted Ascii String Bool OrderedTypeEx.
From stdpp Require Import gmap strings list pretty.
Import ListNotations.
Open Scope Z_scope.

(** ** Floats under exact arithmetic *)

(** A float cell: [None] is NaN. *)
Definition float := option Q.

Definition Qltb (a b : Q) : bool := negb (Qle_bool b a).

(** [a - b] on floats; NaN propagates. *)
Definition fsub (a b : float) : float :=
  match a, b with
  | Some x, Some y => Some (x - y)%Q
  | _, _ => None
  end.

(** Equality of floats up to the value of the fraction. *)
Definition feq (a b : float) : Prop :=
  match a, b with
  | Some x, Some y => (x == y)%Q
  | None, None => True
  | _, _ => False
  end.

Definition qsum (xs : list Q) : Q := fold_right Qplus 0%Q xs.

Definition qlen {A} (xs : list A) : Q := inject_Z (Z.of_nat (List.length xs)).

(** The non-missing values of a float column. *)
Definition dropna (xs : list float) : list Q :=
  flat_map (fun x => match x with Some q => [q] | None => [] end) xs.

(** [Series.mean()] of values without NaN: NaN for no value at all. *)
Definition mean (xs : list Q) : float :=
  match xs with
  | [] => None
  | _ => Some (qsum xs / qlen xs)%Q
  end.

(** [Series.mean()], [skipna=True]. *)
Definition fmean (xs : list float) : float := mean (dropna xs).

(** The square root of a rational, kept as its radicand. *)
Record surd := Sqrt { radicand : Q }.

(** The real number a [surd] stands for. *)
Definition surd_R (s : surd) : R := sqrt (Q2R (radicand s)).

(** Sample variance ([ddof=1]): NaN for fewer than two values. *)
Definition var (xs : list Q) : float :=
  match mean xs with
  | None => None
  | Some m =>
      if (List.length xs <=? 1)%nat then None
      else Some (qsum (map (fun x => (x - m) * (x - m)) xs)
                 / inject_Z (Z.of_nat (List.length xs - 1)))%Q
  end.

(** [Series.std()]: the square root of the sample variance. *)
Definition std (xs : list Q) : option surd :=
  match var xs with
  | None => None
  | Some v => Some (Sqrt v)
  end.

(** [x > m + 2 * sqrt v], decided on rationals. *)
Definition gt_plus_2sqrt (x m v : Q) : bool :=
  Qltb m x && Qltb (4 * v) ((x - m) * (x - m)).

(** [x < m - 2 * sqrt v], decided on rationals. *)
Definition lt_minus_2sqrt (x m v : Q) : bool :=
  Qltb x m && Qltb (4 * v) ((m - x) * (m - x)).

(** [x > mean + 2 * std] as pandas evaluates it on a row: a comparison with
    NaN is [False]. *)
Definition gt_mean_2std (x : Q) (m : float) (s : option surd) : bool :=
  match m, s with
  | Some m, Some s => gt_plus_2sqrt x m (radicand s)
  | _, _ => false
  end.

(** [x < mean - 2 * std], likewise. *)
Definition lt_mean_2std (x : Q) (m : float) (s : option surd) : bool :=
  match m, s with
  | Some m, Some s => lt_minus_2sqrt x m (radicand s)
  | _, _ => false
  end.

(** ** [pd.cut] *)

(** [numpy.searchsorted(bins, x, side='left')] on increasing [bins]: the
    number of edges strictly below [x]. *)
Fixpoint searchsorted_left (bins : list Q) (x : Q) : nat :=
  match bins with
  | [] => O
  | b :: bs => if Qltb b x then S (searchsorted_left bs x) else O
  end.

(** [pd.cut(x, bins, labels, include_lowest)] with the default
    [right=True]: bin [i] is [(bins[i-1], bins[i]]]; with [include_lowest]
    a value equal to the first edge goes to the first bin; a value in no
    bin is NaN. *)
Definition cut {L} (bins : list Q) (labels : list L) (include_lowest : bool)
    (x : Q) : option L :=
  let ids := searchsorted_left bins x in
  let ids :=
    if include_lowest && Qeq_bool x (hd 0%Q bins) then 1%nat else ids in
  if (ids =? 0)%nat || (ids =? List.length bins)%nat then None
  else nth_error labels (ids - 1).

(** ** Derived columns of the Enricher *)

Inductive season_label := Winter | Spring | Summer | Fall.

Inductive region_label :=
  Antarctica | Southern | TropicalS | TropicalN | Northern | Arctic.

Definition season_eqb (a b : season_label) : bool :=
  match a, b with
  | Winter, Winter | Spring, Spring | Summer, Summer | Fall, Fall => true
  | _, _ => false
  end.

Definition region_eqb (a b : region_label) : bool :=
  match a, b with
  | Antarctica, Antarctica | Southern, Southern | TropicalS, TropicalS
  | TropicalN, TropicalN | Northern, Northern | Arctic, Arctic => true
  | _, _ => false
  end.

(** The categories of the [region] column, in the order of [labels]. *)
Definition region_categories : list region_label :=
  [Antarctica; Southern; TropicalS; TropicalN; Northern; Arctic].

Definition season_categories : list season_label :=
  [Winter; Spring; Summer; Fall].

(** [temp_df['season']]: the cut over the month, then the assignment
    [temp_df.loc[temp_df['month'] == 12, 'season'] = 'Winter']. *)
Definition season_of_month (month : Z) : option season_label :=
  let s := cut [0; 3; 6; 9; 13]%Q season_categories true (inject_Z month) in
  if month =? 12 then Some Winter else s.

(** [data['region']]: the cut over the latitude ([include_lowest] is left
    at its default, [False]). *)
Definition region_of_latitude (latitude : Q) : option region_label :=
  cut [-90; -60; -30; 0; 30; 60; 90]%Q region_categories false latitude.

(** [(year // 10) * 10]; [Z.div] rounds down as Python's [//] does. *)
Definition decade_of_year (year : Z) : Z := (year / 10) * 10.

(** [temperature / 10.0]. *)
Definition celsius (temperature : Z) : Q := (inject_Z temperature / 10)%Q.

(** The season table of the specification: December to February are
    Winter, March to May Spring, June to August Summer, September to
    November Fall. *)
Definition spec_season (month : Z) : option season_label :=
  if (month =? 12) || (month =? 1) || (month =? 2) then Some Winter
  else if (3 <=? month) && (month <=? 5) then Some Spring
  else if (6 <=? month) && (month <=? 8) then Some Summer
  else if (9 <=? month) && (month <=? 11) then Some Fall
  else None.

(** The latitude bins of the specification, [(lo, hi]] per region. *)
Definition region_bin (r : region_label) : Q * Q :=
  match r with
  | Antarctica => (-90, -60)
  | Southern => (-60, -30)
  | TropicalS => (-30, 0)
  | TropicalN => (0, 30)
  | Northern => (30, 60)
  | Arctic => (60, 90)
  end%Q.

(** ** Data model *)

(** One row of [station_metadata.csv]. *)
Module Station.
Record t := mk {
  station_id : string;
  latitude : Q;
  longitude : Q;
  elevation : Q;
  name : string;
  country : string }.
End Station.

(** A calendar date (year, month, day), the value of the [date] column. *)
Definition timestamp := (Z * Z * Z)%type.

(** One row of the temperature table ([temp_df]) and of the enriched table
    ([data]).  A frame lists the columns it carries; the field of a column
    the frame does not carry holds a default and is not read.
    [temperature] is an integer column (tenths of a degree), so
    [temperature_c] is never missing; [season] and [region] are missing
    where [pd.cut] finds no bin. *)
Module Rec.
Record t := mk {
  station_id : string;
  year : Z;
  month : Z;
  temperature : Z;
  temperature_c : Q;
  date : timestamp;
  season : option season_label;
  meta : Station.t;
  region : option region_label;
  decade : Z }.

Definition with_temperature_c (r : t) (v : Q) : t :=
  mk (station_id r) (year r) (month r) (temperature r) v (date r)
     (season r) (meta r) (region r) (decade r).

Definition with_date (r : t) (v : timestamp) : t :=
  mk (station_id r) (year r) (month r) (temperature r) (temperature_c r) v
     (season r) (meta r) (region r) (decade r).

Definition with_season (r : t) (v : option season_label) : t :=
  mk (station_id r) (year r) (month r) (temperature r) (temperature_c r)
     (date r) v (meta r) (region r) (decade r).

Definition with_meta (r : t) (v : Station.t) : t :=
  mk (station_id r) (year r) (month r) (temperature r) (temperature_c r)
     (date r) (season r) v (region r) (decade r).

Definition with_region (r : t) (v : option region_label) : t :=
  mk (station_id r) (year r) (month r) (temperature r) (temperature_c r)
     (date r) (season r) (meta r) v (decade r).

Definition with_decade (r : t) (v : Z) : t :=
  mk (station_id r) (year r) (month r) (temperature r) (temperature_c r)
     (date r) (season r) (meta r) (region r) v.
End Rec.

(** A DataFrame of such rows: the column index and the rows. *)
Record frame := Frame { columns : list string; rows : list Rec.t }.

(** [df[c] = ...]: the column is appended to the index unless it is there
    already, and every row takes its new cell. *)
Definition add_column (c : string) (cs : list string) : list string :=
  if existsb (String.eqb c) cs then cs else cs ++ [c].

Definition assign (c : string) (upd : Rec.t -> Rec.t) (f : frame) : frame :=
  Frame (add_column c (columns f)) (map upd (rows f)).

(** [annual_global_avg]. *)
Module Global.
Record t := mk { year : Z; temperature_c : float; temp_anomaly : float }.
End Global.

(** [annual_regional_avg] as grouped, before the baseline is joined. *)
Module RegionalMean.
Record t := mk { year : Z; region : region_label; temperature_c : float }.
End RegionalMean.

(** [regional_baselines]. *)
Module Baseline.
Record t := mk { region : region_label; baseline_temp : float }.
End Baseline.

(** [annual_regional_avg] as saved. *)
Module Regional.
Record t := mk {
  year : Z;
  region : region_label;
  temperature_c : float;
  baseline_temp : float;
  temp_anomaly : float }.
End Regional.

(** [seasonal_avg]. *)
Module Seasonal.
Record t := mk { year : Z; season : season_label; temperature_c : float }.
End Seasonal.

(** [decadal_avg]. *)
Module Decadal.
Record t := mk { decade : Z; region : region_label; temperature_c : float }.
End Decadal.

(** [station_stats]. *)
Module Stats.
Record t := mk { station_id : string; mean : float; std : option surd }.
End Stats.

(** The detector's own frame: [data] joined with [station_stats], with the
    two flags. *)
Module Flagged.
Record t := mk {
  base : Rec.t;
  mean : float;
  std : option surd;
  extreme_hot : bool;
  extreme_cold : bool }.
End Flagged.

(** [extreme_counts]. *)
Module Extreme.
Record t := mk {
  decade : Z;
  region : region_label;
  extreme_hot : Z;
  extreme_cold : Z }.
End Extreme.

(** ** Group-by *)

Section Levels.
Context {K : Type} (ltb eqb : K -> K -> bool).

Fixpoint insert_level (k : K) (ks : list K) : list K :=
  match ks with
  | [] => [k]
  | h :: t =>
      if eqb k h then ks
      else if ltb k h then k :: ks
      else h :: insert_level k t
  end.

(** The distinct values of a key column, in increasing order
    ([sort=True]). *)
Definition levels (ks : list K) : list K := fold_right insert_level [] ks.
End Levels.

Definition year_levels : list Z -> list Z := levels Z.ltb Z.eqb.
Definition station_levels : list string -> list string :=
  levels String.ltb String.eqb.

(** [observed] is not passed to any [groupby] of the script: the default
    of pandas 1.x and 2.x, under which the tables below are read.  From
    pandas 3 the default is [true]. *)
Definition observed_default : bool := false.

Definition is_nil {A} (l : list A) : bool :=
  match l with [] => true | _ => false end.

Section GroupBy.
Context {A C : Type} (ceqb : C -> C -> bool) (cats : list C).
Context (key : A -> Z) (cat : A -> option C).

(** Rows with a missing key belong to no group ([dropna=True]). *)
Definition has_cat (c : C) (a : A) : bool :=
  match cat a with Some c' => ceqb c' c | None => false end.

Definition in_cell (k : Z) (c : C) (a : A) : bool :=
  (key a =? k) && has_cat c a.

(** [groupby(key)] on an integer column: one group per value. *)
Definition groupby_key (rs : list A) : list (Z * list A) :=
  map (fun k => (k, List.filter (fun a => key a =? k) rs))
      (year_levels (map key rs)).

(** [groupby(cat)] on a categorical column: one group per category, or per
    category that occurs when [observed]. *)
Definition groupby_cat (observed : bool) (rs : list A)
    : list (C * list A) :=
  let gs := map (fun c => (c, List.filter (has_cat c) rs)) cats in
  if observed then List.filter (fun g => negb (is_nil (snd g))) gs else gs.

(** [groupby([key, cat])]: one group per pair of a value of [key] and a
    category of [cat], or per pair that occurs when [observed]. *)
Definition groupby_key_cat (observed : bool) (rs : list A)
    : list (Z * C * list A) :=
  let gs :=
    map (fun kc => (fst kc, snd kc, List.filter (in_cell (fst kc) (snd kc)) rs))
        (list_prod (year_levels (map key rs)) cats) in
  if observed then List.filter (fun g => negb (is_nil (snd g))) gs else gs.
End GroupBy.

(** ** Trend Aggregator: the tables *)

Definition temps (g : list Rec.t) : list Q := map Rec.temperature_c g.

(** [data.groupby('year')['temperature_c'].mean().reset_index()]. *)
Definition global_means (data : list Rec.t) : list (Z * float) :=
  map (fun g => (fst g, mean (temps (snd g)))) (groupby_key Rec.year data).

(** [annual_global_avg] with its [temp_anomaly] column: the year's mean
    minus the mean of the [temperature_c] column of the grouped table. *)
Definition annual_global_avg (data : list Rec.t) : list Global.t :=
  let avg := global_means data in
  let m := fmean (map snd avg) in
  map (fun r => Global.mk (fst r) (snd r) (fsub (snd r) m)) avg.

(** [data.groupby(['year', 'region'])['temperature_c'].mean().reset_index()]. *)
Definition regional_means (observed : bool) (data : list Rec.t)
    : list RegionalMean.t :=
  map (fun g => RegionalMean.mk (fst (fst g)) (snd (fst g)) (mean (temps (snd g))))
      (groupby_key_cat region_eqb region_categories Rec.year Rec.region
         observed data).

(** [(year >= 1961) & (year <= 1990)]. *)
Definition baseline_period (year : Z) : bool :=
  (1961 <=? year) && (year <=? 1990).

(** [annual_regional_avg[baseline_period].groupby('region')['temperature_c']
    .mean().reset_index()], the column renamed to [baseline_temp]. *)
Definition regional_baselines (observed : bool) (avg : list RegionalMean.t)
    : list Baseline.t :=
  map (fun g =>
         Baseline.mk (fst g) (fmean (map RegionalMean.temperature_c (snd g))))
      (groupby_cat region_eqb region_categories
         (fun r => Some (RegionalMean.region r)) observed
         (List.filter (fun r => baseline_period (RegionalMean.year r)) avg)).

(** [pd.merge(annual_regional_avg, regional_baselines, on='region')]: an
    inner join.  The rows are given in the order of the left table, as
    pandas documents it; the statements below are about membership and
    multiplicity and do not depend on the order. *)
Definition merge_baselines (avg : list RegionalMean.t) (bl : list Baseline.t)
    : list (RegionalMean.t * Baseline.t) :=
  flat_map
    (fun r =>
       map (pair r)
           (List.filter
              (fun b => region_eqb (Baseline.region b) (RegionalMean.region r))
              bl))
    avg.

(** [annual_regional_avg] with [baseline_temp] and [temp_anomaly]. *)
Definition annual_regional_avg_with (observed : bool) (data : list Rec.t)
    : list Regional.t :=
  let avg := regional_means observed data in
  map (fun p =>
         let r := fst p in
         let b := snd p in
         Regional.mk (RegionalMean.year r) (RegionalMean.region r)
           (RegionalMean.temperature_c r) (Baseline.baseline_temp b)
           (fsub (RegionalMean.temperature_c r) (Baseline.baseline_temp b)))
      (merge_baselines avg (regional_baselines observed avg)).

Definition annual_regional_avg : list Rec.t -> list Regional.t :=
  annual_regional_avg_with observed_default.

(** [data.groupby(['year', 'season'])['temperature_c'].mean().reset_index()]. *)
Definition seasonal_avg (data : list Rec.t) : list Seasonal.t :=
  map (fun g => Seasonal.mk (fst (fst g)) (snd (fst g)) (mean (temps (snd g))))
      (groupby_key_cat season_eqb season_categories Rec.year Rec.season
         observed_default data).

(** [data['decade'] = (data['year'] // 10) * 10], row by row. *)
Definition set_decade (r : Rec.t) : Rec.t :=
  Rec.with_decade r (decade_of_year (Rec.year r)).

(** [data.groupby(['decade', 'region'])['temperature_c'].mean().reset_index()],
    over rows that carry [decade]. *)
Definition decadal_avg (data : list Rec.t) : list Decadal.t :=
  map (fun g => Decadal.mk (fst (fst g)) (snd (fst g)) (mean (temps (snd g))))
      (groupby_key_cat region_eqb region_categories Rec.decade Rec.region
         observed_default data).

(** ** Extreme Event Detector: the tables *)

Definition station_rows (s : string) (data : list Rec.t) : list Rec.t :=
  List.filter (fun r => String.eqb (Rec.station_id r) s) data.

(** The row of [station_stats] for one station: mean and standard
    deviation of the station's [temperature_c]. *)
Definition station_stat (data : list Rec.t) (s : string) : Stats.t :=
  let g := temps (station_rows s data) in
  Stats.mk s (mean g) (std g).

(** [data.groupby('station_id')['temperature_c'].agg(['mean', 'std'])
    .reset_index()]. *)
Definition station_stats (data : list Rec.t) : list Stats.t :=
  map (station_stat data) (station_levels (map Rec.station_id data)).

(** [pd.merge(data, station_stats, on='station_id')]. *)
Definition merge_stats (data : list Rec.t) (stats : list Stats.t)
    : list (Rec.t * Stats.t) :=
  flat_map
    (fun r =>
       map (pair r)
           (List.filter
              (fun s => String.eqb (Stats.station_id s) (Rec.station_id r))
              stats))
    data.

(** The two flag columns, then the [decade] column, of the joined frame. *)
Definition flag (p : Rec.t * Stats.t) : Flagged.t :=
  let r := fst p in
  let s := snd p in
  Flagged.mk (set_decade r) (Stats.mean s) (Stats.std s)
    (gt_mean_2std (Rec.temperature_c r) (Stats.mean s) (Stats.std s))
    (lt_mean_2std (Rec.temperature_c r) (Stats.mean s) (Stats.std s)).

Definition flagged (data : list Rec.t) : list Flagged.t :=
  map flag (merge_stats data (station_stats data)).

(** The sum of a boolean column. *)
Definition count_true (bs : list bool) : Z :=
  fold_right (fun (b : bool) n => (if b then 1 else 0) + n) 0 bs.

(** [data.groupby(['decade', 'region'])[['extreme_hot', 'extreme_cold']]
    .sum().reset_index()]. *)
Definition extreme_counts_with (observed : bool) (data : list Rec.t)
    : list Extreme.t :=
  map (fun g =>
         Extreme.mk (fst (fst g)) (snd (fst g))
           (count_true (map Flagged.extreme_hot (snd g)))
           (count_true (map Flagged.extreme_cold (snd g))))
      (groupby_key_cat region_eqb region_categories
         (fun x => Rec.decade (Flagged.base x))
         (fun x => Rec.region (Flagged.base x))
         observed (flagged data)).

Definition extreme_counts : list Rec.t -> list Extreme.t :=
  extreme_counts_with observed_default.

(** ** The world the scripts run in *)

(** What a result file holds, and what [pd.read_csv] returns for it. *)
Inductive table :=
| Readings (f : frame)
| AnnualGlobal (t : list Global.t)
| AnnualRegional (t : list Regional.t)
| SeasonalAvg (t : list Seasonal.t)
| DecadalAvg (t : list Decadal.t)
| ExtremeCounts (t : list Extreme.t).

(** The three files of [DATA_DIR]; [None] is a file that does not exist. *)
Record data_files := DataFiles {
  ghcnm_data : option string;
  temperature_data : option frame;
  station_metadata : option (list Station.t) }.

(** The DataFrame objects the pipeline passes around live in [heap] and are
    named by their index, so that an assignment into a frame is seen by
    every holder of the reference.  The station metadata is passed by
    value: no statement of the script assigns into it.  [results_dir] maps
    a file name of [RESULTS_DIR] to its table.  [remote] is the answer of
    the remote source to a GET, status code and body, or [None] when the
    request raises. *)
Record world := World {
  heap : list frame;
  data_dir : data_files;
  results_dir : gmap string table;
  remote : option (Z * string) }.

Definition set_heap (w : world) (h : list frame) : world :=
  World h (data_dir w) (results_dir w) (remote w).

Definition set_data_dir (w : world) (d : data_files) : world :=
  World (heap w) d (results_dir w) (remote w).

Definition set_results_dir (w : world) (r : gmap string table) : world :=
  World (heap w) (data_dir w) r (remote w).

Inductive exn :=
| ConnectionError
| DownloadFailed (status : Z)
| ValueError
| FileNotFoundError
| KeyError (key : string)
| ReferenceError.

(** A statement: it may change the world, and returns or raises. *)
Definition M (A : Type) : Type := world -> world * (exn + A).

#[global] Instance M_ret : MRet M := fun A a w => (w, inr a).

#[global] Instance M_bind : MBind M := fun A B k m w =>
  match m w with
  | (w', inr a) => k a w'
  | (w', inl e) => (w', inl e)
  end.

Definition raise {A} (e : exn) : M A := fun w => (w, inl e).

(** [try: m except Exception as e: h e]. *)
Definition catch {A} (m : M A) (h : exn -> M A) : M A := fun w =>
  match m w with
  | (w', inl e) => h e w'
  | r => r
  end.

Definition deref (l : nat) : M frame := fun w =>
  match heap w !! l with
  | Some f => (w, inr f)
  | None => (w, inl ReferenceError)
  end.

(** An assignment into the object [l]. *)
Definition update (l : nat) (g : frame -> frame) : M unit := fun w =>
  match heap w !! l with
  | Some f => (set_heap w (<[l := g f]> (heap w)), inr tt)
  | None => (w, inl ReferenceError)
  end.

(** A new object. *)
Definition alloc (f : frame) : M nat := fun w =>
  (set_heap w (heap w ++ [f]), inr (List.length (heap w))).

(** [df.to_csv(os.path.join(RESULTS_DIR, file), index=False)]. *)
Definition to_results (file : string) (t : table) : M unit := fun w =>
  (set_results_dir w (<[file := t]> (results_dir w)), inr tt).

(** The writes into [DATA_DIR]: the downloaded archive and the two tables
    of the sample generator. *)
Definition save_archive (body : string) : M unit := fun w =>
  let d := data_dir w in
  (set_data_dir w
     (DataFiles (Some body) (temperature_data d) (station_metadata d)),
   inr tt).

Definition save_station_metadata (s : list Station.t) : M unit := fun w =>
  let d := data_dir w in
  (set_data_dir w (DataFiles (ghcnm_data d) (temperature_data d) (Some s)),
   inr tt).

Definition save_temperature_data (f : frame) : M unit := fun w =>
  let d := data_dir w in
  (set_data_dir w (DataFiles (ghcnm_data d) (Some f) (station_metadata d)),
   inr tt).

(** ** Enricher *)

(** [pd.merge(temp_df, station_metadata, on='station_id')]: an inner join;
    a new frame. *)
Definition merge_metadata (f : frame) (ms : list Station.t) : frame :=
  Frame (columns f ++ ["latitude"; "longitude"; "elevation"; "name"; "country"])
    (flat_map
       (fun r =>
          map (Rec.with_meta r)
              (List.filter
                 (fun s => String.eqb (Station.station_id s) (Rec.station_id r))
                 ms))
       (rows f)).

(** [df[c] = cells], the cells given as a column. *)
Definition assign_cells {V} (c : string) (upd : Rec.t -> V -> Rec.t)
    (cells : list V) (f : frame) : frame :=
  Frame (add_column c (columns f)) (zip_with upd (rows f) cells).

Definition cut_season (r : Rec.t) : Rec.t :=
  Rec.with_season r
    (cut [0; 3; 6; 9; 13]%Q season_categories true (inject_Z (Rec.month r))).

Definition december_is_winter (r : Rec.t) : Rec.t :=
  if Rec.month r =? 12 then Rec.with_season r (Some Winter) else r.

Definition cut_region (r : Rec.t) : Rec.t :=
  Rec.with_region r (region_of_latitude (Station.latitude (Rec.meta r))).

Section Pipeline.

(** [pd.to_datetime] on a year, a month and day 1: the date, or [None]
    where pandas raises (a month outside 1..12, a year outside the range of
    a timestamp). *)
Variable to_datetime : Z -> Z -> option timestamp.

(** What [create_sample_data] draws from its seeded generator. *)
Variable sample_temperature : frame.
Variable sample_metadata : list Station.t.

Definition preprocess_data (temp_df : nat) (stations : list Station.t)
    : M nat :=
  update temp_df
    (assign "temperature_c"
       (fun r => Rec.with_temperature_c r (celsius (Rec.temperature r))));;
  df ← deref temp_df;
  match mapM (fun r => to_datetime (Rec.year r) (Rec.month r)) (rows df) with
  | None => raise ValueError
  | Some dates =>
      update temp_df (assign_cells "date" Rec.with_date dates);;
      update temp_df (assign "season" cut_season);;
      update temp_df (assign "season" december_is_winter);;
      df ← deref temp_df;
      data ← alloc (merge_metadata df stations);
      update data (assign "region" cut_region);;
      mret data
  end.

(** The dictionary [analyze_temperature_trends] returns. *)
Record trend_results := TrendResults {
  tr_annual_global_avg : list Global.t;
  tr_annual_regional_avg : list Regional.t;
  tr_seasonal_avg : list Seasonal.t;
  tr_decadal_avg : list Decadal.t }.

Definition analyze_temperature_trends (data : nat) : M trend_results :=
  df ← deref data;
  let global := annual_global_avg (rows df) in
  let regional := annual_regional_avg (rows df) in
  let seasonal := seasonal_avg (rows df) in
  update data (assign "decade" set_decade);;
  df ← deref data;
  let decadal := decadal_avg (rows df) in
  to_results "annual_global_avg.csv" (AnnualGlobal global);;
  to_results "annual_regional_avg.csv" (AnnualRegional regional);;
  to_results "seasonal_avg.csv" (SeasonalAvg seasonal);;
  to_results "decadal_avg.csv" (DecadalAvg decadal);;
  mret (TrendResults global regional seasonal decadal).

(** The detector joins [data] with the station statistics into a frame of
    its own and assigns the flags and [decade] into that one. *)
Definition analyze_extreme_temperatures (data : nat) : M (list Extreme.t) :=
  df ← deref data;
  let counts := extreme_counts (rows df) in
  to_results "extreme_counts.csv" (ExtremeCounts counts);;
  mret counts.

(** ** Loader *)

(** The generator builds the two tables, saves them and returns them. *)
Definition create_sample_data : M (nat * list Station.t) :=
  temp_df ← alloc sample_temperature;
  save_station_metadata sample_metadata;;
  save_temperature_data sample_temperature;;
  mret (temp_df, sample_metadata).

Definition requests_get : M (Z * string) := fun w =>
  match remote w with
  | Some r => (w, inr r)
  | None => (w, inl ConnectionError)
  end.

Definition download_data : M unit :=
  catch
    (catch
       (response ← requests_get;
        if fst response =? 200 then save_archive (snd response)
        else raise (DownloadFailed (fst response)))
       (fun _ => create_sample_data;; mret tt))
    (fun e => raise e).

(** Both files exist: they are read, each into a new table; otherwise the
    generator runs. *)
Definition load_data : M (nat * list Station.t) := fun w =>
  match temperature_data (data_dir w), station_metadata (data_dir w) with
  | Some t, Some s => (temp_df ← alloc t; mret (temp_df, s)) w
  | _, _ => create_sample_data w
  end.

(** The dictionary [run_analysis] returns. *)
Record analysis := Analysis {
  an_data : nat;
  an_trend_results : trend_results;
  an_extreme_results : list Extreme.t }.

Definition run_analysis : M analysis :=
  catch download_data (fun _ => mret tt);;
  loaded ← load_data;
  data ← preprocess_data (fst loaded) (snd loaded);
  trend ← analyze_temperature_trends data;
  extreme ← analyze_extreme_temperatures data;
  df ← deref data;
  to_results "processed_data.csv" (Readings df);;
  mret (Analysis data trend extreme).

End Pipeline.

(** ** Result Store: [load_results] of [app.py] and [visualization.py] *)

Definition required_files : list string :=
  ["annual_global_avg.csv"; "annual_regional_avg.csv"; "seasonal_avg.csv";
   "decadal_avg.csv"; "extreme_counts.csv"; "processed_data.csv"]%string.

(** [file.split('.')[0]]. *)
Fixpoint stem (file : string) : string :=
  match file with
  | EmptyString => EmptyString
  | String c rest =>
      if Ascii.eqb c "."%char then EmptyString else String c (stem rest)
  end.

(** The loop over [required_files]. *)
Definition collect_results (w : world) : gmap string table :=
  fold_left
    (fun results file =>
       match results_dir w !! file with
       | Some t => <[stem file := t]> results
       | None => results
       end)
    required_files ∅.

(** The two scripts hold the same function, logging apart. *)
Definition load_results (w : world) : exn + gmap string table :=
  let results := collect_results w in
  if (size results =? 0)%nat then inl FileNotFoundError else inr results.

(** A consumer's [results = load_results()] followed by [results[name]]. *)
Definition get_table (name : string) (w : world) : exn + table :=
  match load_results w with
  | inl e => inl e
  | inr results =>
      match results !! name with
      | Some t => inr t
      | None => inl (KeyError name)
      end
  end.

(** ** Cells of the tables, for the statements below *)

(** The records of a (year, region) cell. *)
Definition cell_records (y : Z) (r : region_label) (data : list Rec.t)
    : list Rec.t :=
  List.filter (in_cell region_eqb Rec.year Rec.region y r) data.

(** The baseline a region gets: the mean of the non-missing means of its
    rows of the baseline period. *)
Definition baseline_of (avg : list RegionalMean.t) (r : region_label) : float :=
  fmean (map RegionalMean.temperature_c
           (List.filter
              (has_cat region_eqb (fun m => Some (RegionalMean.region m)) r)
              (List.filter (fun m => baseline_period (RegionalMean.year m)) avg))).

(** The records of a (decade, region) cell. *)
Definition decade_cell (d : Z) (r : region_label) (data : list Rec.t)
    : list Rec.t :=
  List.filter
    (in_cell region_eqb (fun x => decade_of_year (Rec.year x)) Rec.region d r)
    data.

(** The temperature table after the Enricher's assignments. *)
Definition enriched_temp_df (dates : list timestamp) (f : frame) : frame :=
  assign "season" december_is_winter
    (assign "season" cut_season
       (assign_cells "date" Rec.with_date dates
          (assign "temperature_c"
             (fun r => Rec.with_temperature_c r (celsius (Rec.temperature r)))
             f))).

(** ** A small data set *)

Definition station_a : Station.t :=
  Station.mk "A" 45 10 200 "Alpha" "FRA".

Definition station_b : Station.t :=
  Station.mk "B" (-10) 30 50 "Beta" "BRA".

(** A record of the enriched table, [decade] not yet assigned. *)
Definition example_record (st : Station.t) (year month temperature : Z)
    : Rec.t :=
  Rec.mk (Station.station_id st) year month temperature (celsius temperature)
    (year, month, 1) (season_of_month month) st
    (region_of_latitude (Station.latitude st)) 0.

(** Station A, in Northern, has one record, of 1995; station B, in
    Tropical S, has three. *)
Definition example_rows : list Rec.t :=
  [example_record station_a 1995 1 215;
   example_record station_b 1962 7 280;
   example_record station_b 1962 8 290;
   example_record station_b 1995 7 300].

Definition example_frame : frame :=
  Frame ["station_id"; "year"; "month"; "temperature"; "temperature_c";
         "date"; "season"; "latitude"; "longitude"; "elevation"; "name";
         "country"; "region"]
        example_rows.

(** An enriched table in memory, nothing on disk, no remote source. *)
Definition example_world : world :=
  World [example_frame] (DataFiles None None None) ∅ None.

(** A record as the Loader returns it: the four columns of the file. *)
Definition raw_record (s : string) (year month temperature : Z) : Rec.t :=
  Rec.mk s year month temperature 0 (0, 0, 0) None
    (Station.mk "" 0 0 0 "" "") None 0.

(** What the sample generator is taken to draw in the examples. *)
Definition example_temperature : frame :=
  Frame ["station_id"; "year"; "month"; "temperature"]
        [raw_record "A" 1995 1 215; raw_record "B" 1962 7 280;
         raw_record "B" 1962 8 290; raw_record "B" 1995 7 300].

(** Nothing in memory, nothing on disk, no remote source. *)
Definition empty_world : world :=
  World [] (DataFiles None None None) ∅ None.

(** A date assembler for the examples: it raises on a month outside 1..12. *)
Definition example_to_datetime (year month : Z) : option timestamp :=
  if (1 <=? month) && (month <=? 12) then Some (year, month, 1) else None.

(** ** Further readings of the tables *)

(** The metadata rows a record joins with. *)
Definition metadata_of (ms : list Station.t) (r : Rec.t) : list Station.t :=
  List.filter (fun s => String.eqb (Station.station_id s) (Rec.station_id r)) ms.

(** A record whose station has a metadata row. *)
Definition has_metadata (ms : list Station.t) (r : Rec.t) : bool :=
  negb (is_nil (metadata_of ms r)).

(** The enriched record made of a temperature record, its assembled date
    and a metadata row of its station. *)
Definition enriched_record (x : Rec.t) (d : timestamp) (st : Station.t)
    : Rec.t :=
  Rec.mk (Rec.station_id x) (Rec.year x) (Rec.month x) (Rec.temperature x)
    (celsius (Rec.temperature x)) d (season_of_month (Rec.month x)) st
    (region_of_latitude (Station.latitude st)) (Rec.decade x).

(** The columns of the enriched table, from those of the temperature
    table. *)
Definition enriched_columns (cs : list string) : list string :=
  add_column "region"
    (add_column "season"
       (add_column "date" (add_column "temperature_c" cs))
     ++ ["latitude"; "longitude"; "elevation"; "name"; "country"]).

(** The rows of the regional annual table that make the baseline of a
    region: those of the region in the years 1961 to 1990. *)
Definition baseline_rows (r : region_label) (table : list Regional.t)
    : list Regional.t :=
  List.filter
    (fun row =>
       region_eqb (Regional.region row) r && baseline_period (Regional.year row))
    table.

(** The records of a (year, season) cell. *)
Definition season_cell (y : Z) (s : season_label) (data : list Rec.t)
    : list Rec.t :=
  List.filter (in_cell season_eqb Rec.year Rec.season y s) data.

(** The sum of an integer column. *)
Definition zsum (l : list Z) : Z := fold_right Z.add 0 l.

(** A row of the detector's frame whose region is not missing. *)
Definition has_region (x : Flagged.t) : bool :=
  match Rec.region (Flagged.base x) with Some _ => true | None => false end.

(** The enriched table the Enricher builds from a temperature table, the
    dates of its records and the station metadata. *)
Definition enriched_data (dates : list timestamp) (f : frame)
    (stations : list Station.t) : frame :=
  assign "region" cut_region
    (merge_metadata (enriched_temp_df dates f) stations).

(** The answer of the remote source is a 200. *)
Definition downloaded (w : world) : bool :=
  match remote w with
  | Some (status, _) => status =? 200
  | None => false
  end.

(** The temperature table and the station metadata [run_analysis] works
    on: the persisted ones when the download succeeded and both files
    exist, the generated ones otherwise. *)
Definition analysed_table (sample : frame) (w : world) : frame :=
  match temperature_data (data_dir w), station_metadata (data_dir w) with
  | Some t, Some _ => if downloaded w then t else sample
  | _, _ => sample
  end.

Definition analysed_stations (sample : list Station.t) (w : world)
    : list Station.t :=
  match temperature_data (data_dir w), station_metadata (data_dir w) with
  | Some _, Some s => if downloaded w then s else sample
  | _, _ => sample
  end.

(** The steps of [run_analysis] after the data is loaded. *)
Definition analyse (to_datetime : Z -> Z -> option timestamp)
    (loaded : nat * list Station.t) : M analysis :=
  data ← preprocess_data to_datetime (fst loaded) (snd loaded);
  trend ← analyze_temperature_trends data;
  extreme ← analyze_extreme_temperatures data;
  df ← deref data;
  to_results "processed_data.csv" (Readings df);;
  mret (Analysis data trend extreme).

(** The enriched table of a run, with the decade the Trend Aggregator
    assigns still to come. *)
Definition run_data (dates : list timestamp) (st : frame)
    (sm : list Station.t) (w : world) : frame :=
  enriched_data dates (analysed_table st w) (analysed_stations sm w).

(** ** The sample generator *)

Definition SAMPLE_SIZE : nat := 100.
Definition START_YEAR : Z := 1960.
Definition END_YEAR : Z := 2020.

(** What [create_sample_data] draws from [np.random] for the station of
    index [i], and the temperature (tenths of a degree, rounded) it
    computes from the draws for a station, a year and a month: read here as
    given functions. *)
Record draws := Draws {
  latitude_of : nat -> Q;
  longitude_of : nat -> Q;
  elevation_of : nat -> Q;
  country_of : nat -> string;
  temperature_of : nat -> Z -> Z -> Z }.

(** [range(a, b)]. *)
Definition zrange (a b : Z) : list Z :=
  map (fun k => a + Z.of_nat k) (seq 0 (Z.to_nat (b - a))).

(** A decimal padded with zeros on the left to [width] digits. *)
Definition zero_pad (width : nat) (s : string) : string :=
  (String.concat "" (repeat "0" (width - String.length s)) ++ s)%string.

(** [f'STATION{i:03d}']. *)
Definition sample_station_id (i : nat) : string :=
  ("STATION" ++ zero_pad 3 (pretty i))%string.

Definition sample_years : list Z := zrange START_YEAR (END_YEAR + 1).
Definition sample_months : list Z := zrange 1 13.

(** The station table of the generator. *)
Definition generated_metadata (dr : draws) : list Station.t :=
  map (fun i =>
         Station.mk (sample_station_id i) (latitude_of dr i) (longitude_of dr i)
           (elevation_of dr i) ("Sample Station " ++ pretty i)%string
           (country_of dr i))
      (seq 0 SAMPLE_SIZE).

(** The three nested loops: stations, years, months. *)
Definition sample_keys : list (nat * (Z * Z)) :=
  list_prod (seq 0 SAMPLE_SIZE) (list_prod sample_years sample_months).

(** The temperature table of the generator. *)
Definition generated_temperature (dr : draws) : frame :=
  Frame ["station_id"; "year"; "month"; "temperature"]
    (map (fun k =>
            raw_record (sample_station_id (fst k)) (fst (snd k)) (snd (snd k))
              (temperature_of dr (fst k) (fst (snd k)) (snd (snd k))))
         sample_keys).

(** A draw for the examples. *)
Definition example_draws : draws :=
  Draws (fun i => inject_Z (Z.of_nat i) - 60)%Q (fun _ => 0%Q) (fun _ => 100%Q)
    (fun _ => "USA") (fun i y m => 100 + Z.of_nat i + (y - 1960) + m).

(** ** More small inputs *)

(** The temperature table of the examples in memory, as the Loader leaves
    it. *)
Definition raw_world : world :=
  World [example_temperature] (DataFiles None None None) ∅ None.

Definition example_dates : list timestamp :=
  [(1995, 1, 1); (1962, 7, 1); (1962, 8, 1); (1995, 7, 1)].

(** One result file of an earlier run, the others missing. *)
Definition partial_store : world :=
  set_results_dir empty_world {["seasonal_avg.csv"%string := SeasonalAvg []]}.

(** A table with a month that is none. *)
Definition bad_temperature : frame :=
  Frame ["station_id"; "year"; "month"; "temperature"]
        [raw_record "A" 1995 1 215; raw_record "A" 1995 13 220].

Definition bad_world : world :=
  World [bad_temperature] (DataFiles None None None) ∅ None.


(** ** The detector's numbers as doubles *)

(** pandas holds [temperature_c], [mean] and [std] as IEEE 754 binary64
    numbers.  They are read here as [spec_float] values, with the
    operations of the Standard Library's specification of IEEE arithmetic
    at 53 bits of precision: every operation rounds to nearest, ties to
    even, and NaN compares false with everything. *)
Declare Scope float64_scope.
Delimit Scope float64_scope with f64.
Infix "+" := (SFadd 53 1024) : float64_scope.
Infix "-" := (SFsub 53 1024) : float64_scope.
Infix "*" := (SFmul 53 1024) : float64_scope.
Infix "/" := (SFdiv 53 1024) : float64_scope.

(** An [int64] as a [float64]. *)
Definition Z2f64 (n : Z) : spec_float := binary_normalize 53 1024 n 0 false.

(** The double 2.0, that is 2^52 * 2^-51. *)
Definition two64 : spec_float := S754_finite false 4503599627370496 (-51).

(** [temp_df['temperature'] / 10.0]. *)
Definition celsius64 (temperature : Z) : spec_float :=
  (Z2f64 temperature / Z2f64 10)%f64.

(** The group mean of pandas: the values are added in the order of the
    rows with a running compensation (Kahan), and the sum is divided by
    their number. *)
Definition kahan_step (acc : spec_float * spec_float) (v : spec_float)
    : spec_float * spec_float :=
  let sumx := fst acc in
  let compensation := snd acc in
  let y := (v - compensation)%f64 in
  let t := (sumx + y)%f64 in
  (t, (t - sumx - y)%f64).

Definition mean64 (values : list spec_float) : spec_float :=
  (fst (fold_left kahan_step values (Z2f64 0, Z2f64 0))
   / Z2f64 (Z.of_nat (List.length values)))%f64.

(** The group standard deviation of pandas, [ddof=1]: the sum of squared
    deviations is accumulated with the running mean (Welford), divided by
    the number of values less one, and its square root is taken; it is NaN
    for fewer than two values. *)
Definition welford_step (acc : Z * spec_float * spec_float) (v : spec_float)
    : Z * spec_float * spec_float :=
  let nobs := fst (fst acc) + 1 in
  let oldmean := snd (fst acc) in
  let mean := (oldmean + (v - oldmean) / Z2f64 nobs)%f64 in
  (nobs, mean, (snd acc + (v - mean) * (v - oldmean))%f64).

Definition std64 (values : list spec_float) : spec_float :=
  let acc := fold_left welford_step values (0, Z2f64 0, Z2f64 0) in
  let nobs := fst (fst acc) in
  if nobs <=? 1 then S754_nan
  else SFsqrt 53 1024 (snd acc / Z2f64 (nobs - 1))%f64.

(** [data['temperature_c'] > (data['mean'] + 2 * data['std'])]. *)
Definition extreme_hot64 (x m s : spec_float) : bool :=
  SFltb (m + Z2f64 2 * s)%f64 x.

(** [data['temperature_c'] < (data['mean'] - 2 * data['std'])]. *)
Definition extreme_cold64 (x m s : spec_float) : bool :=
  SFltb x (m - Z2f64 2 * s)%f64.

(** The [temperature_c] of a station's records, in the order of the rows. *)
Definition station_temps64 (data : list Rec.t) (s : string)
    : list spec_float :=
  map (fun r => celsius64 (Rec.temperature r)) (station_rows s data).

(** The two flags of a record, from the statistics of its station. *)
Definition flags64 (data : list Rec.t) (r : Rec.t) : bool * bool :=
  let g := station_temps64 data (Rec.station_id r) in
  (extreme_hot64 (celsius64 (Rec.temperature r)) (mean64 g) (std64 g),
   extreme_cold64 (celsius64 (Rec.temperature r)) (mean64 g) (std64 g)).

(** A station with 0.1, 0.5, 0.6, 0.6, 0.6 and 0.6 degrees: mean 0.5 and
    standard deviation 0.2, so that 0.1 is mean minus two deviations. *)
Definition boundary_rows : list Rec.t :=
  [example_record station_b 1962 1 1; example_record station_b 1962 2 5;
   example_record station_b 1962 3 6; example_record station_b 1962 4 6;
   example_record station_b 1962 5 6; example_record station_b 1962 6 6].

(** A station with three records of 0.7 degrees. *)
Definition constant_rows : list Rec.t :=
  [example_record station_b 1962 1 7; example_record station_b 1962 2 7;
   example_record station_b 1962 3 7].

(** A station with one record far below the others. *)
Definition outlier_rows : list Rec.t :=
  [example_record station_b 1962 1 10; example_record station_b 1962 2 600;
   example_record station_b 1962 3 600; example_record station_b 1962 4 600;
   example_record station_b 1962 5 600; example_record station_b 1962 6 600].

(** The same station at 15, 75, 90, 90, 90 and 90 degrees, where every
    step of the statistics is exact in binary64. *)
Definition threshold_rows : list Rec.t :=
  [example_record station_b 1962 1 150; example_record station_b 1962 2 750;
   example_record station_b 1962 3 900; example_record station_b 1962 4 900;
   example_record station_b 1962 5 900; example_record station_b 1962 6 900].

(** * Properties *)

(** ** Comparisons of rationals and of the reals they stand for *)

Ltac qlra := Lqa.lra.
Ltac qnra := Lqa.nra.
Ltac rlra := Lra.lra.
Ltac rnra := Lra.nra.

Lemma Qltb_lt (a b : Q) : Qltb a b = true <-> (a < b)%Q.
Proof.
  unfold Qltb. rewrite negb_true_iff.
  split; intros H.
  - apply Qnot_le_lt. intros Hle. apply Qle_bool_iff in Hle. congruence.
  - destruct (Qle_bool b a) eqn:E; [|reflexivity].
    apply Qle_bool_iff in E. exfalso. apply (Qlt_not_le _ _ H E).
Qed.

Lemma Qltb_ge (a b : Q) : Qltb a b = false <-> (b <= a)%Q.
Proof.
  unfold Qltb. rewrite negb_false_iff. apply Qle_bool_iff.
Qed.

(** ** Enricher: season and region *)

Lemma season_of_row (r : Rec.t) :
  Rec.season (december_is_winter (cut_season r)) = season_of_month (Rec.month r).
Proof.
  unfold december_is_winter, season_of_month, cut_season. simpl.
  destruct (Rec.month r =? 12); reflexivity.
Qed.

Lemma region_of_row (r : Rec.t) :
  Rec.region (cut_region r)
  = region_of_latitude (Station.latitude (Rec.meta r)).
Proof. reflexivity. Qed.

(** Every record the Enricher leaves in the temperature table has the
    season of its month, and every record of the enriched table the region
    of its station's latitude. *)
Lemma enriched_season (dates : list timestamp) (f : frame) (r : Rec.t) :
  In r (rows (enriched_temp_df dates f)) ->
  Rec.season r = season_of_month (Rec.month r).
Proof.
  unfold enriched_temp_df, assign. cbn [rows]. rewrite map_map, in_map_iff.
  intros (x & <- & _). rewrite season_of_row. f_equal.
  unfold december_is_winter. cbn. destruct (Rec.month x =? 12); reflexivity.
Qed.

Lemma enriched_region (g : frame) (stations : list Station.t) (r : Rec.t) :
  In r (rows (assign "region" cut_region (merge_metadata g stations))) ->
  Rec.region r = region_of_latitude (Station.latitude (Rec.meta r)).
Proof.
  unfold assign. cbn [rows]. rewrite in_map_iff.
  intros (x & <- & _). reflexivity.
Qed.

(** C1, at the months where the code leaves the table of the
    specification: March, June and September fall into the bin that ends
    at them ([(0,3]], [(3,6]], [(6,9]]), so the code assigns Winter, Spring
    and Summer where the table says Spring, Summer and Fall. *)
Theorem season_bins_end_one_month_late :
  season_of_month 3 = Some Winter /\ spec_season 3 = Some Spring /\
  season_of_month 6 = Some Spring /\ spec_season 6 = Some Summer /\
  season_of_month 9 = Some Summer /\ spec_season 9 = Some Fall.
Proof. repeat split; reflexivity. Qed.

(** On the other nine months the code and the table agree. *)
Lemma season_agrees_off_bin_ends (month : Z) :
  1 <= month <= 12 -> month <> 3 -> month <> 6 -> month <> 9 ->
  season_of_month month = spec_season month.
Proof.
  intros H H3 H6 H9.
  assert (month = 1 \/ month = 2 \/ month = 4 \/ month = 5 \/ month = 7 \/
          month = 8 \/ month = 10 \/ month = 11 \/ month = 12) as Hm by lia.
  repeat (destruct Hm as [-> | Hm]; [reflexivity|]). subst. reflexivity.
Qed.

Ltac edge H :=
  first [ apply Qltb_lt in H | apply Qltb_ge in H ].

(** C2, amended: every latitude of [(-90, 90]] gets the region whose
    right-closed bin [(lo, hi]] contains it; so latitude 0, the upper end
    of [(-30, 0]], is in Tropical S, and latitude 90 is in Arctic. *)
Theorem region_is_the_right_closed_bin (lat : Q) :
  (-90 < lat)%Q -> (lat <= 90)%Q ->
  exists r, region_of_latitude lat = Some r /\
            (fst (region_bin r) < lat)%Q /\ (lat <= snd (region_bin r))%Q.
Proof.
  intros Hlo Hhi. unfold region_of_latitude, cut. cbn [searchsorted_left andb].
  destruct (Qltb (-90) lat) eqn:E0; edge E0; [|exfalso; qlra].
  destruct (Qltb (-60) lat) eqn:E1; edge E1;
    [|exists Antarctica; cbn; split; [reflexivity|qlra]].
  destruct (Qltb (-30) lat) eqn:E2; edge E2;
    [|exists Southern; cbn; split; [reflexivity|qlra]].
  destruct (Qltb 0 lat) eqn:E3; edge E3;
    [|exists TropicalS; cbn; split; [reflexivity|qlra]].
  destruct (Qltb 30 lat) eqn:E4; edge E4;
    [|exists TropicalN; cbn; split; [reflexivity|qlra]].
  destruct (Qltb 60 lat) eqn:E5; edge E5;
    [|exists Northern; cbn; split; [reflexivity|qlra]].
  destruct (Qltb 90 lat) eqn:E6; edge E6; [exfalso; qlra|].
  exists Arctic; cbn; split; [reflexivity|qlra].
Qed.

Lemma region_is_the_right_closed_bin_witness :
  exists r, region_of_latitude 0 = Some r /\
            (fst (region_bin r) < 0)%Q /\ (0 <= snd (region_bin r))%Q.
Proof. apply (region_is_the_right_closed_bin 0); qlra. Defined.

(** C2 as stated fails at latitude 0: the code does not answer Tropical N. *)
Lemma region_of_latitude_zero_is_not_tropical_n :
  region_of_latitude 0 <> Some TropicalN.
Proof. discriminate. Qed.

Lemma region_of_latitude_zero : region_of_latitude 0 = Some TropicalS.
Proof. reflexivity. Qed.

Lemma region_of_latitude_north_pole : region_of_latitude 90 = Some Arctic.
Proof. reflexivity. Qed.

(** The lowest edge belongs to no bin. *)
Lemma region_of_latitude_south_pole : region_of_latitude (-90) = None.
Proof. reflexivity. Qed.

(** A region is assigned only to a latitude of its bin. *)
Lemma region_only_in_bin (lat : Q) (r : region_label) :
  region_of_latitude lat = Some r ->
  (fst (region_bin r) < lat)%Q /\ (lat <= snd (region_bin r))%Q.
Proof.
  unfold region_of_latitude, cut. cbn [searchsorted_left andb].
  destruct (Qltb (-90) lat) eqn:E0; edge E0; [|discriminate].
  destruct (Qltb (-60) lat) eqn:E1; edge E1;
    [|cbn; intros [= <-]; cbn; qlra].
  destruct (Qltb (-30) lat) eqn:E2; edge E2;
    [|cbn; intros [= <-]; cbn; qlra].
  destruct (Qltb 0 lat) eqn:E3; edge E3;
    [|cbn; intros [= <-]; cbn; qlra].
  destruct (Qltb 30 lat) eqn:E4; edge E4;
    [|cbn; intros [= <-]; cbn; qlra].
  destruct (Qltb 60 lat) eqn:E5; edge E5;
    [|cbn; intros [= <-]; cbn; qlra].
  destruct (Qltb 90 lat) eqn:E6; edge E6; [discriminate|].
  cbn; intros [= <-]; cbn; qlra.
Qed.

(** ** Levels of a key column *)

Section LevelsFacts.
Context {K : Type} (lt : K -> K -> Prop) (ltb eqb : K -> K -> bool).
Hypothesis eqb_eq : forall a b, eqb a b = true <-> a = b.
Hypothesis ltb_lt : forall a b, ltb a b = true <-> lt a b.
Hypothesis lt_trans : forall a b c, lt a b -> lt b c -> lt a c.
Hypothesis lt_irrefl : forall a, ~ lt a a.
Hypothesis lt_total : forall a b, ltb a b = false -> eqb a b = false -> lt b a.

Lemma In_insert_level (k x : K) (ks : list K) :
  In x (insert_level ltb eqb k ks) <-> x = k \/ In x ks.
Proof.
  induction ks as [|h t IH]; simpl.
  - intuition.
  - destruct (eqb k h) eqn:E.
    + apply eqb_eq in E. subst. simpl. intuition.
    + destruct (ltb k h); simpl; [intuition|]. rewrite IH. intuition.
Qed.

Lemma In_levels (x : K) (ks : list K) :
  In x (levels ltb eqb ks) <-> In x ks.
Proof.
  induction ks as [|h t IH]; simpl; [reflexivity|].
  rewrite In_insert_level, IH. intuition.
Qed.

Lemma insert_level_sorted (k : K) (ks : list K) :
  StronglySorted lt ks -> StronglySorted lt (insert_level ltb eqb k ks).
Proof.
  induction 1 as [|h t Hs IH Hall]; simpl.
  - repeat constructor.
  - destruct (eqb k h) eqn:E; [constructor; assumption|].
    destruct (ltb k h) eqn:L.
    + apply ltb_lt in L. constructor; [constructor; assumption|].
      constructor; [assumption|].
      rewrite List.Forall_forall in *. intros y Hy. eauto.
    + constructor; [assumption|].
      rewrite List.Forall_forall in *. intros y Hy.
      apply In_insert_level in Hy as [-> | Hy]; [|auto].
      apply lt_total; assumption.
Qed.

Lemma levels_sorted (ks : list K) : StronglySorted lt (levels ltb eqb ks).
Proof.
  induction ks; simpl; [constructor|]. apply insert_level_sorted; assumption.
Qed.

Lemma sorted_once (k : K) (l : list K) :
  StronglySorted lt l -> In k l -> List.filter (fun x => eqb x k) l = [k].
Proof.
  induction 1 as [|h t Hs IH Hall]; simpl; [tauto|].
  rewrite List.Forall_forall in Hall.
  assert (In k t -> eqb h k = false) as Hne.
  { intros Hk. destruct (eqb h k) eqn:E; [|reflexivity].
    apply eqb_eq in E. subst. exfalso. eapply lt_irrefl; eauto. }
  intros [-> | Hk].
  - replace (eqb k k) with true by (symmetry; apply eqb_eq; reflexivity).
    f_equal. clear IH Hne.
    induction t as [|y t IHt]; simpl; [reflexivity|].
    inversion Hs; subst.
    destruct (eqb y k) eqn:E.
    + apply eqb_eq in E. subst. exfalso.
      apply (lt_irrefl k). apply Hall. left. reflexivity.
    + apply IHt; [assumption|]. intros z Hz. apply Hall. right. assumption.
  - rewrite (Hne Hk). auto.
Qed.
End LevelsFacts.

Lemma In_year_levels (y : Z) (ks : list Z) :
  In y (year_levels ks) <-> In y ks.
Proof. apply In_levels. apply Z.eqb_eq. Qed.

Lemma In_station_levels (s : string) (ks : list string) :
  In s (station_levels ks) <-> In s ks.
Proof. apply In_levels. apply String.eqb_eq. Qed.

Lemma year_levels_sorted (ks : list Z) : StronglySorted Z.lt (year_levels ks).
Proof.
  apply (levels_sorted Z.lt Z.ltb Z.eqb Z.eqb_eq Z.ltb_lt Z.lt_trans).
  intros a b Hl He. apply Z.ltb_ge in Hl. apply Z.eqb_neq in He. lia.
Qed.

Lemma string_ltb_lt (a b : string) :
  String.ltb a b = true <-> String_as_OT.lt a b.
Proof.
  rewrite <- String_as_OT.cmp_lt. unfold String.ltb, String_as_OT.cmp.
  destruct (String.compare a b); split; congruence.
Qed.

Lemma string_lt_total (a b : string) :
  String.ltb a b = false -> String.eqb a b = false -> String_as_OT.lt b a.
Proof.
  intros Hl He. apply String_as_OT.cmp_lt.
  rewrite String_as_OT.cmp_antisym. unfold String_as_OT.cmp.
  unfold String.ltb in Hl. apply String.eqb_neq in He.
  destruct (String.compare a b) eqn:E; simpl; try congruence.
  apply String.compare_eq_iff in E. contradiction.
Qed.

Lemma station_level_once (s : string) (ks : list string) :
  In s ks ->
  List.filter (fun x => String.eqb x s) (station_levels ks) = [s].
Proof.
  intros H.
  apply (sorted_once String_as_OT.lt String.eqb String.eqb_eq).
  - intros a Ha. apply (String_as_OT.lt_not_eq _ _ Ha). reflexivity.
  - apply (levels_sorted String_as_OT.lt String.ltb String.eqb String.eqb_eq
             string_ltb_lt String_as_OT.lt_trans string_lt_total).
  - apply In_station_levels. assumption.
Qed.

(** ** Means *)

Lemma qlen_cons {A} (a : A) (l : list A) : (qlen (a :: l) == 1 + qlen l)%Q.
Proof.
  unfold qlen. cbn [List.length]. rewrite Nat2Z.inj_succ, <- Z.add_1_l.
  rewrite inject_Z_plus. reflexivity.
Qed.

Lemma qlen_nonneg {A} (l : list A) : (0 <= qlen l)%Q.
Proof.
  unfold qlen. change 0%Q with (inject_Z 0). rewrite <- Zle_Qle. lia.
Qed.

Lemma qlen_pos {A} (l : list A) : l <> [] -> (0 < qlen l)%Q.
Proof.
  destruct l as [|a l]; [congruence|]. intros _.
  rewrite qlen_cons. pose proof (qlen_nonneg l). qlra.
Qed.

Lemma qlen_map {A B} (f : A -> B) (l : list A) : qlen (map f l) = qlen l.
Proof. unfold qlen. rewrite List.length_map. reflexivity. Qed.

Lemma mean_nonempty (xs : list Q) :
  xs <> [] -> mean xs = Some (qsum xs / qlen xs)%Q.
Proof. destruct xs; [congruence|reflexivity]. Qed.

Lemma mean_None (xs : list Q) : mean xs = None <-> xs = [].
Proof. destruct xs; simpl; split; congruence. Qed.

Lemma dropna_Some (qs : list Q) : dropna (map Some qs) = qs.
Proof.
  unfold dropna. induction qs as [|q qs IH]; simpl; [reflexivity|].
  f_equal. exact IH.
Qed.

Lemma dropna_all_None (fs : list float) :
  (forall f, In f fs -> f = None) -> dropna fs = [].
Proof.
  unfold dropna. induction fs as [|f fs IH]; simpl; [reflexivity|].
  intros H. rewrite (H f) by (left; reflexivity). simpl.
  apply IH. intros g Hg. apply H. right. exact Hg.
Qed.

Lemma all_Some (fs : list float) :
  (forall f, In f fs -> exists q, f = Some q) -> exists qs, fs = map Some qs.
Proof.
  induction fs as [|f fs IH]; intros H.
  - exists []. reflexivity.
  - destruct (H f) as [q ->]; [left; reflexivity|].
    destruct IH as [qs ->]; [intros g Hg; apply H; right; exact Hg|].
    exists (q :: qs). reflexivity.
Qed.

Lemma qsum_cons (q : Q) (qs : list Q) : qsum (q :: qs) = (q + qsum qs)%Q.
Proof. reflexivity. Qed.

Lemma qsum_shift (c : Q) (qs : list Q) :
  (qsum (map (fun q => q - c) qs) == qsum qs - qlen qs * c)%Q.
Proof.
  induction qs as [|q qs IH].
  - unfold qlen. simpl. ring.
  - rewrite qlen_cons. cbn [map]. rewrite !qsum_cons, IH. ring.
Qed.

(** The deviations from the mean have mean zero. *)
Lemma mean_centered (qs : list Q) :
  qs <> [] ->
  feq (mean (map (fun q => q - qsum qs / qlen qs)%Q qs)) (Some 0%Q).
Proof.
  intros Hne. rewrite mean_nonempty by (destruct qs; simpl; congruence).
  unfold feq. rewrite qsum_shift, qlen_map.
  pose proof (qlen_pos qs Hne). field. intros E. rewrite E in H. qlra.
Qed.

(** ** Trend Aggregator: the global annual table *)

Lemma In_global_means (data : list Rec.t) (p : Z * float) :
  In p (global_means data) <->
  In (fst p) (map Rec.year data) /\
  snd p = mean (temps (List.filter (fun a => Rec.year a =? fst p) data)).
Proof.
  unfold global_means, groupby_key. rewrite map_map, in_map_iff.
  split.
  - intros (k & <- & Hk). rewrite In_year_levels in Hk. simpl. auto.
  - intros [Hy Hm]. exists (fst p). rewrite In_year_levels.
    split; [|assumption]. destruct p; simpl in *. congruence.
Qed.

Lemma year_group_nonempty (data : list Rec.t) (y : Z) :
  In y (map Rec.year data) ->
  temps (List.filter (fun a => Rec.year a =? y) data) <> [].
Proof.
  rewrite in_map_iff. intros (a & <- & Ha) E.
  apply map_eq_nil in E.
  assert (In a (List.filter (fun b => Rec.year b =? Rec.year a) data)) as Hin.
  { apply filter_In. split; [assumption|]. apply Z.eqb_refl. }
  rewrite E in Hin. contradiction.
Qed.

Lemma global_means_defined (data : list Rec.t) :
  exists qs, map snd (global_means data) = map Some qs /\
             (data <> [] -> qs <> []).
Proof.
  destruct (all_Some (map snd (global_means data))) as [qs Hqs].
  - intros f Hf. apply in_map_iff in Hf as (p & <- & Hp).
    apply In_global_means in Hp as [Hy ->].
    pose proof (year_group_nonempty data _ Hy) as Hne.
    rewrite mean_nonempty by assumption. eauto.
  - exists qs. split; [assumption|]. intros Hd ->.
    apply map_eq_nil in Hqs. unfold global_means, groupby_key in Hqs.
    do 2 apply map_eq_nil in Hqs.
    destruct data as [|a data]; [congruence|].
    assert (In (Rec.year a) (year_levels (map Rec.year (a :: data)))) as Hin.
    { apply In_year_levels. left. reflexivity. }
    rewrite Hqs in Hin. contradiction.
Qed.

(** The yearly means of a non-empty data set, as numbers. *)
Lemma global_means_values (data : list Rec.t) :
  global_means data
  = map (fun y =>
           (y, Some (qsum (temps (List.filter (fun r => Rec.year r =? y) data))
                     / qlen (temps (List.filter (fun r => Rec.year r =? y) data)))%Q))
        (year_levels (map Rec.year data)).
Proof.
  unfold global_means, groupby_key. rewrite map_map. apply map_ext_in.
  intros y Hy. cbn [fst snd]. rewrite In_year_levels in Hy.
  rewrite mean_nonempty by (apply year_group_nonempty; exact Hy). reflexivity.
Qed.

(** C4: on a non-empty enriched record set the global annual table has one
    row per year of the data, in increasing order of the year.  The
    [temperature_c] of a year is the sum of the [temperature_c] of the
    year's records over their number; the reference is the sum of these
    yearly means over the number of years, each year counting once however
    many records it has; the [temp_anomaly] of a year is its mean minus the
    reference; and the anomalies average to zero. *)
Theorem global_anomaly_mean_is_zero (data : list Rec.t) :
  data <> [] ->
  exists (means : list (Z * Q)) (reference : Q),
    StronglySorted Z.lt (map fst means) /\
    (forall y, In y (map fst means) <-> In y (map Rec.year data)) /\
    (forall y m, In (y, m) means ->
       let g := map Rec.temperature_c
                  (List.filter (fun r => Rec.year r =? y) data) in
       g <> [] /\
       (m == fold_right Qplus 0 g / inject_Z (Z.of_nat (List.length g)))%Q) /\
    means <> [] /\
    (reference
     == fold_right Qplus 0 (map snd means)
        / inject_Z (Z.of_nat (List.length means)))%Q /\
    annual_global_avg data
    = map (fun p =>
             Global.mk (fst p) (Some (snd p)) (Some (snd p - reference)%Q))
          means /\
    (fold_right Qplus 0 (map (fun p => snd p - reference) means)
     / inject_Z (Z.of_nat (List.length means)) == 0)%Q.
Proof.
  intros Hne.
  set (g := fun y => temps (List.filter (fun r => Rec.year r =? y) data)).
  set (means := map (fun y => (y, (qsum (g y) / qlen (g y))%Q))
                  (year_levels (map Rec.year data))).
  set (qs := map snd means).
  assert (map fst means = year_levels (map Rec.year data)) as Hyears.
  { unfold means. rewrite map_map. cbn [fst]. apply map_id. }
  assert (means <> []) as Hmeans.
  { destruct data as [|r data]; [congruence|].
    assert (In (Rec.year r) (map fst means)) as Hin
      by (rewrite Hyears; apply In_year_levels; left; reflexivity).
    intros E. rewrite E in Hin. contradiction. }
  assert (qs <> []) as Hqs
    by (unfold qs; intros E; apply map_eq_nil in E; contradiction).
  assert (global_means data = map (fun p => (fst p, Some (snd p))) means)
    as Hglobal.
  { rewrite global_means_values. unfold means. rewrite map_map. reflexivity. }
  exists means, (qsum qs / qlen qs)%Q.
  split; [rewrite Hyears; apply year_levels_sorted|].
  split; [intros y; rewrite Hyears; apply In_year_levels|].
  split.
  { intros y m Hin. unfold means in Hin.
    apply in_map_iff in Hin as (y' & [= -> <-] & Hy).
    rewrite In_year_levels in Hy. cbv zeta. split.
    - exact (year_group_nonempty data y Hy).
    - reflexivity. }
  split; [exact Hmeans|].
  split.
  { unfold qlen, qs. rewrite List.length_map. reflexivity. }
  split.
  { assert (map snd (global_means data) = map Some qs) as Hcol
      by (rewrite Hglobal; unfold qs; rewrite !map_map; reflexivity).
    unfold annual_global_avg. cbv zeta. rewrite Hcol. unfold fmean.
    rewrite dropna_Some, (mean_nonempty qs Hqs), Hglobal, map_map.
    reflexivity. }
  assert (map (fun p => (snd p - qsum qs / qlen qs)%Q) means
          = map (fun q => (q - qsum qs / qlen qs)%Q) qs) as Hanom
    by (unfold qs; rewrite map_map; reflexivity).
  rewrite Hanom. fold (qsum (map (fun q => (q - qsum qs / qlen qs)%Q) qs)).
  rewrite qsum_shift.
  pose proof (qlen_pos qs Hqs) as Hpos.
  assert (inject_Z (Z.of_nat (List.length means)) = qlen qs) as Hlen
    by (unfold qlen, qs; rewrite List.length_map; reflexivity).
  rewrite Hlen. field. intros E. rewrite E in Hpos. qlra.
Qed.

(** ** Trend Aggregator: the regional annual table *)

Lemma region_eqb_eq (a b : region_label) : region_eqb a b = true <-> a = b.
Proof. destruct a, b; simpl; split; congruence. Qed.

Lemma In_region_categories (r : region_label) : In r region_categories.
Proof. destruct r; simpl; tauto. Qed.

Lemma filter_nil_iff {A} (p : A -> bool) (l : list A) :
  List.filter p l = [] <-> forall x, In x l -> p x = false.
Proof.
  induction l as [|a l IH]; simpl.
  - split; [contradiction|reflexivity].
  - destruct (p a) eqn:E.
    + split; [discriminate|]. intros H. rewrite (H a) in E; [discriminate|auto].
    + rewrite IH. split.
      * intros H x [<- | Hx]; auto.
      * intros H x Hx. apply H. auto.
Qed.

(** Without [observed], the grouped table has one row per year of the data
    and region category. *)
Lemma In_regional_means (data : list Rec.t) (m : RegionalMean.t) :
  In m (regional_means false data) <->
  In (RegionalMean.year m) (map Rec.year data) /\
  RegionalMean.temperature_c m
  = mean (temps (cell_records (RegionalMean.year m) (RegionalMean.region m) data)).
Proof.
  unfold regional_means, groupby_key_cat. rewrite map_map, in_map_iff.
  split.
  - intros ([y r] & <- & Hk). apply in_prod_iff in Hk as [Hy _].
    rewrite In_year_levels in Hy. simpl. auto.
  - intros [Hy Hm]. exists (RegionalMean.year m, RegionalMean.region m).
    split.
    + destruct m; simpl in *. rewrite Hm. reflexivity.
    + apply in_prod_iff. rewrite In_year_levels.
      split; [assumption|apply In_region_categories].
Qed.

Lemma regional_baselines_all (avg : list RegionalMean.t) :
  regional_baselines false avg
  = map (fun r => Baseline.mk r (baseline_of avg r)) region_categories.
Proof.
  unfold regional_baselines, groupby_cat. rewrite map_map. reflexivity.
Qed.

(** Every row of the grouped table meets exactly the baseline row of its
    region: the join drops nothing. *)
Lemma merge_baselines_all (avg : list RegionalMean.t) :
  merge_baselines avg (regional_baselines false avg)
  = map (fun m =>
           (m, Baseline.mk (RegionalMean.region m)
                 (baseline_of avg (RegionalMean.region m))))
        avg.
Proof.
  rewrite regional_baselines_all. unfold merge_baselines.
  generalize (baseline_of avg) as b. intros b.
  induction avg as [|m avg IH]; [reflexivity|].
  cbn [flat_map map]. rewrite IH.
  destruct (RegionalMean.region m); reflexivity.
Qed.

Lemma annual_regional_avg_rows (data : list Rec.t) :
  annual_regional_avg data
  = map (fun m =>
           let b := baseline_of (regional_means false data) (RegionalMean.region m) in
           Regional.mk (RegionalMean.year m) (RegionalMean.region m)
             (RegionalMean.temperature_c m) b
             (fsub (RegionalMean.temperature_c m) b))
        (regional_means false data).
Proof.
  unfold annual_regional_avg, annual_regional_avg_with, observed_default.
  rewrite merge_baselines_all, map_map. reflexivity.
Qed.

Lemma fsub_None_r (a : float) : fsub a None = None.
Proof. destruct a; reflexivity. Qed.

(** A region whose rows of the baseline period all miss their mean has a
    missing baseline. *)
Lemma baseline_of_missing (avg : list RegionalMean.t) (r : region_label) :
  (forall m, In m avg -> RegionalMean.region m = r ->
     baseline_period (RegionalMean.year m) = true ->
     RegionalMean.temperature_c m = None) ->
  baseline_of avg r = None.
Proof.
  intros H. unfold baseline_of, fmean. rewrite dropna_all_None; [reflexivity|].
  intros f Hf. apply in_map_iff in Hf as (m & <- & Hm).
  apply filter_In in Hm as [Hm Hr]. apply filter_In in Hm as [Hm Hy].
  apply H; [assumption| |assumption].
  unfold has_cat in Hr. apply region_eqb_eq in Hr. exact Hr.
Qed.

(** No record of the region in the baseline period: the rows of the period
    miss their mean. *)
Lemma no_baseline_records (data : list Rec.t) (r : region_label) :
  (forall x, In x data -> Rec.region x = Some r ->
     baseline_period (Rec.year x) = false) ->
  forall m, In m (regional_means observed_default data) ->
    RegionalMean.region m = r ->
    baseline_period (RegionalMean.year m) = true ->
    RegionalMean.temperature_c m = None.
Proof.
  intros H m Hm Hr Hy. apply In_regional_means in Hm as [_ ->].
  apply mean_None. unfold temps, cell_records.
  replace (List.filter _ data) with (@nil Rec.t); [reflexivity|].
  symmetry. apply filter_nil_iff. intros x Hx.
  unfold in_cell, has_cat.
  destruct (Rec.year x =? RegionalMean.year m) eqn:Ey; [|reflexivity].
  destruct (Rec.region x) as [c|] eqn:Ec; [|reflexivity].
  destruct (region_eqb c (RegionalMean.region m)) eqn:Er; [|reflexivity].
  apply region_eqb_eq in Er. apply Z.eqb_eq in Ey. subst c.
  rewrite Hr in Ec. pose proof (H x Hx Ec) as Hf. rewrite Ey in Hf.
  congruence.
Qed.

Lemma not_nil_has_element {A} (l : list A) :
  negb (is_nil l) = true -> exists x, In x l.
Proof. destruct l as [|x l]; [discriminate|]. intros _. exists x. left. reflexivity. Qed.

(** With [observed=True] a row of the grouped table stands for a record. *)
Lemma observed_regional_mean_has_a_record (data : list Rec.t) (m : RegionalMean.t) :
  In m (regional_means true data) ->
  exists x, In x data /\ Rec.year x = RegionalMean.year m /\
            Rec.region x = Some (RegionalMean.region m).
Proof.
  unfold regional_means, groupby_key_cat. rewrite in_map_iff.
  intros (g & <- & Hg). apply filter_In in Hg as [Hg Hne].
  apply in_map_iff in Hg as ([y c] & <- & _). cbn [fst snd] in *.
  apply not_nil_has_element in Hne as (x & Hx).
  apply filter_In in Hx as [Hx Hcell]. exists x. split; [exact Hx|].
  unfold in_cell, has_cat in Hcell. apply andb_true_iff in Hcell as [Hy Hc].
  apply Z.eqb_eq in Hy. destruct (Rec.region x) as [c'|]; [|discriminate].
  apply region_eqb_eq in Hc. subst. cbn. auto.
Qed.

(** With [observed=True] a row of the joined table has met a baseline row
    of its region, which stands for a record of the region in 1961-1990. *)
Lemma observed_row_has_a_baseline_record (data : list Rec.t) (row : Regional.t) :
  In row (annual_regional_avg_with true data) ->
  exists x, In x data /\ Rec.region x = Some (Regional.region row) /\
            baseline_period (Rec.year x) = true.
Proof.
  unfold annual_regional_avg_with. cbv zeta. rewrite in_map_iff.
  intros ([m b] & <- & Hp). cbn [fst snd Regional.region].
  unfold merge_baselines in Hp. apply in_flat_map in Hp as (m0 & _ & Hp).
  apply in_map_iff in Hp as (b0 & [= <- <-] & Hb).
  apply filter_In in Hb as [Hb Hreg]. apply region_eqb_eq in Hreg.
  unfold regional_baselines, groupby_cat in Hb.
  apply in_map_iff in Hb as (g & <- & Hg). cbn [Baseline.region] in Hreg.
  apply filter_In in Hg as [Hg Hne].
  apply in_map_iff in Hg as (c & <- & _). cbn [fst snd] in *.
  apply not_nil_has_element in Hne as (m' & Hm').
  apply filter_In in Hm' as [Hm' Hc]. apply filter_In in Hm' as [Hm' Hy].
  unfold has_cat in Hc. apply region_eqb_eq in Hc.
  apply observed_regional_mean_has_a_record in Hm' as (x & Hx & Hyear & Hregion).
  exists x. split; [exact Hx|]. split.
  - rewrite Hregion, Hc, Hreg. reflexivity.
  - rewrite Hyear. exact Hy.
Qed.

(** C3, amended: the script passes no [observed] to [groupby], so what
    becomes of a region with no record in 1961-1990 depends on the default
    of the installed pandas.  With [observed=False] (pandas 1.x and 2.x)
    the region has a row for every year of the data, and each of its rows
    has a missing baseline and a missing anomaly, which is not a zero
    anomaly.  With [observed=True] (pandas 3) the region has no baseline
    row and the join drops every row of the region. *)
Theorem missing_baseline_depends_on_observed
    (data : list Rec.t) (r : region_label) :
  (forall x, In x data -> Rec.region x = Some r ->
     baseline_period (Rec.year x) = false) ->
  ((forall y, In y (map Rec.year data) ->
      exists t, In (Regional.mk y r t None None)
                   (annual_regional_avg_with false data)) /\
   (forall row, In row (annual_regional_avg_with false data) ->
      Regional.region row = r ->
      Regional.baseline_temp row = None /\
      Regional.temp_anomaly row = None /\
      ~ feq (Regional.temp_anomaly row) (Some 0%Q))) /\
  (forall row, In row (annual_regional_avg_with true data) ->
     Regional.region row <> r).
Proof.
  intros H. split.
  - pose proof (baseline_of_missing _ r (no_baseline_records data r H)) as Hb.
    unfold observed_default in Hb.
    change (annual_regional_avg_with false data) with (annual_regional_avg data).
    rewrite annual_regional_avg_rows. split.
    + intros y Hy. exists (mean (temps (cell_records y r data))).
      apply in_map_iff.
      exists (RegionalMean.mk y r (mean (temps (cell_records y r data)))).
      split.
      * cbv zeta. cbn [RegionalMean.year RegionalMean.region
                       RegionalMean.temperature_c].
        rewrite Hb, fsub_None_r. reflexivity.
      * apply In_regional_means. cbn. auto.
    + intros row Hrow Hr. apply in_map_iff in Hrow as (m & <- & Hm).
      cbn [Regional.region] in Hr. cbv zeta.
      cbn [Regional.baseline_temp Regional.temp_anomaly].
      rewrite Hr, Hb, fsub_None_r. cbn. tauto.
  - intros row Hrow Hr.
    apply observed_row_has_a_baseline_record in Hrow as (x & Hx & Hreg & Hy).
    rewrite Hr in Hreg. rewrite (H x Hx Hreg) in Hy. discriminate.
Qed.

(** C3 as stated fails with [observed=True]: the Northern region of the
    small data set has a record, none of them in 1961-1990, and no row at
    all in the regional annual table. *)
Lemma observed_groupby_drops_the_region :
  In (example_record station_a 1995 1 215) example_rows /\
  Rec.region (example_record station_a 1995 1 215) = Some Northern /\
  ~ (exists row, In row (annual_regional_avg_with true example_rows) /\
                 Regional.region row = Northern).
Proof.
  split; [left; reflexivity|]. split; [reflexivity|].
  intros (row & Hrow & Hr).
  assert (forallb (fun row => negb (region_eqb (Regional.region row) Northern))
            (annual_regional_avg_with true example_rows) = true) as Hall
    by (vm_compute; reflexivity).
  rewrite forallb_forall in Hall. specialize (Hall row Hrow).
  rewrite Hr in Hall. discriminate.
Qed.

(** ** Extreme Event Detector: the statistics of a station *)

Lemma filter_map_comm {A B} (p : B -> bool) (f : A -> B) (l : list A) :
  List.filter p (map f l) = map f (List.filter (fun a => p (f a)) l).
Proof.
  induction l as [|a l IH]; simpl; [reflexivity|].
  rewrite IH. destruct (p (f a)); reflexivity.
Qed.

(** The join with [station_stats] gives every record the statistics of its
    own station, once. *)
Lemma station_stats_of_record (data : list Rec.t) (r : Rec.t) :
  In r data ->
  List.filter (fun s => String.eqb (Stats.station_id s) (Rec.station_id r))
    (station_stats data)
  = [station_stat data (Rec.station_id r)].
Proof.
  intros Hr. unfold station_stats. rewrite filter_map_comm. simpl.
  rewrite station_level_once; [reflexivity|].
  apply in_map. assumption.
Qed.

Lemma merge_stats_all (data : list Rec.t) :
  merge_stats data (station_stats data)
  = map (fun r => (r, station_stat data (Rec.station_id r))) data.
Proof.
  unfold merge_stats.
  assert (forall l, (forall r, In r l -> In r data) ->
            flat_map
              (fun r =>
                 map (pair r)
                   (List.filter
                      (fun s => String.eqb (Stats.station_id s) (Rec.station_id r))
                      (station_stats data))) l
            = map (fun r => (r, station_stat data (Rec.station_id r))) l) as H.
  { induction l as [|r l IH]; intros Hl; [reflexivity|].
    cbn [flat_map map]. rewrite station_stats_of_record by (apply Hl; left; reflexivity).
    rewrite IH by (intros x Hx; apply Hl; right; exact Hx). reflexivity. }
  apply H. auto.
Qed.

Lemma flagged_rows (data : list Rec.t) :
  flagged data
  = map (fun r => flag (r, station_stat data (Rec.station_id r))) data.
Proof. unfold flagged. rewrite merge_stats_all, map_map. reflexivity. Qed.

Lemma qsum_nonneg (qs : list Q) :
  (forall q, In q qs -> (0 <= q)%Q) -> (0 <= qsum qs)%Q.
Proof.
  induction qs as [|q qs IH]; intros H.
  - unfold qsum. simpl. qlra.
  - rewrite qsum_cons.
    assert (0 <= q)%Q by (apply H; left; reflexivity).
    assert (0 <= qsum qs)%Q by (apply IH; intros x Hx; apply H; right; exact Hx).
    qlra.
Qed.

(** A sample variance is not negative. *)
Lemma var_nonneg (xs : list Q) (v : Q) : var xs = Some v -> (0 <= v)%Q.
Proof.
  unfold var. destruct (mean xs) as [m|]; [|discriminate].
  destruct (List.length xs <=? 1)%nat eqn:E; [discriminate|].
  intros [= <-]. apply Nat.leb_gt in E.
  apply Qle_shift_div_l.
  - change 0%Q with (inject_Z 0). rewrite <- Zlt_Qlt. lia.
  - rewrite Qmult_0_l. apply qsum_nonneg.
    intros q Hq. apply in_map_iff in Hq as (x & <- & _).
    generalize (x - m)%Q. intros d. qnra.
Qed.

Lemma std_radicand_nonneg (xs : list Q) (s : surd) :
  std xs = Some s -> (0 <= radicand s)%Q.
Proof.
  unfold std. destruct (var xs) as [v|] eqn:E; [|discriminate].
  intros [= <-]. simpl. exact (var_nonneg xs v E).
Qed.

(** ** Extreme Event Detector: the two comparisons, over the reals *)

Lemma Q2R_4 : Q2R 4 = 4%R.
Proof. unfold Q2R. simpl. rlra. Qed.

Lemma gt_plus_2sqrt_spec (x m v : Q) :
  (0 <= v)%Q ->
  gt_plus_2sqrt x m v = true <-> (Q2R x > Q2R m + 2 * sqrt (Q2R v))%R.
Proof.
  intros Hv. apply Qle_Rle in Hv. change (Q2R 0) with (Q2R (inject_Z 0)) in Hv.
  replace (Q2R (inject_Z 0)) with 0%R in Hv by (unfold Q2R; simpl; rlra).
  pose proof (sqrt_pos (Q2R v)) as Hs.
  pose proof (sqrt_sqrt (Q2R v) Hv) as Hss.
  unfold gt_plus_2sqrt. rewrite andb_true_iff, !Qltb_lt.
  split.
  - intros [H1 H2]. apply Qlt_Rlt in H1, H2.
    rewrite !Q2R_mult, !Q2R_minus, Q2R_4 in H2.
    set (s := sqrt (Q2R v)) in *. rewrite <- Hss in H2. rnra.
  - intros H. set (s := sqrt (Q2R v)) in *. split; apply Rlt_Qlt.
    + rlra.
    + rewrite !Q2R_mult, !Q2R_minus, Q2R_4, <- Hss. rnra.
Qed.

Lemma lt_minus_2sqrt_spec (x m v : Q) :
  (0 <= v)%Q ->
  lt_minus_2sqrt x m v = true <-> (Q2R x < Q2R m - 2 * sqrt (Q2R v))%R.
Proof.
  intros Hv. apply Qle_Rle in Hv. change (Q2R 0) with (Q2R (inject_Z 0)) in Hv.
  replace (Q2R (inject_Z 0)) with 0%R in Hv by (unfold Q2R; simpl; rlra).
  pose proof (sqrt_pos (Q2R v)) as Hs.
  pose proof (sqrt_sqrt (Q2R v) Hv) as Hss.
  unfold lt_minus_2sqrt. rewrite andb_true_iff, !Qltb_lt.
  split.
  - intros [H1 H2]. apply Qlt_Rlt in H1, H2.
    rewrite !Q2R_mult, !Q2R_minus, Q2R_4 in H2.
    set (s := sqrt (Q2R v)) in *. rewrite <- Hss in H2. rnra.
  - intros H. set (s := sqrt (Q2R v)) in *. split; apply Rlt_Qlt.
    + rlra.
    + rewrite !Q2R_mult, !Q2R_minus, Q2R_4, <- Hss. rnra.
Qed.

(** The two flags exclude each other, whatever the mean and the deviation. *)
Lemma flags_exclusive (x : Q) (m : float) (s : option surd) :
  gt_mean_2std x m s && lt_mean_2std x m s = false.
Proof.
  destruct m as [m|], s as [s|]; try reflexivity. simpl.
  unfold gt_plus_2sqrt, lt_minus_2sqrt.
  destruct (Qltb m x) eqn:E1; [|reflexivity].
  destruct (Qltb x m) eqn:E2; [|simpl; apply andb_false_r].
  apply Qltb_lt in E1, E2. exfalso. qlra.
Qed.

Lemma gt_mean_2std_spec (x : Q) (xs : list Q) :
  gt_mean_2std x (mean xs) (std xs) = true <->
  exists m s, mean xs = Some m /\ std xs = Some s /\
              (Q2R x > Q2R m + 2 * surd_R s)%R.
Proof.
  destruct (std xs) as [s|] eqn:Es.
  - pose proof (std_radicand_nonneg xs s Es) as Hv.
    destruct (mean xs) as [m|]; simpl.
    + rewrite (gt_plus_2sqrt_spec x m _ Hv). split.
      * intros H. exists m, s. auto.
      * intros (m' & s' & [= <-] & [= <-] & H). exact H.
    + split; [discriminate|]. intros (m' & s' & Hm & _). discriminate.
  - destruct (mean xs); simpl; (split; [discriminate|]);
      intros (m' & s' & _ & Hs & _); discriminate.
Qed.

Lemma lt_mean_2std_spec (x : Q) (xs : list Q) :
  lt_mean_2std x (mean xs) (std xs) = true <->
  exists m s, mean xs = Some m /\ std xs = Some s /\
              (Q2R x < Q2R m - 2 * surd_R s)%R.
Proof.
  destruct (std xs) as [s|] eqn:Es.
  - pose proof (std_radicand_nonneg xs s Es) as Hv.
    destruct (mean xs) as [m|]; simpl.
    + rewrite (lt_minus_2sqrt_spec x m _ Hv). split.
      * intros H. exists m, s. auto.
      * intros (m' & s' & [= <-] & [= <-] & H). exact H.
    + split; [discriminate|]. intros (m' & s' & Hm & _). discriminate.
  - destruct (mean xs); simpl; (split; [discriminate|]);
      intros (m' & s' & _ & Hs & _); discriminate.
Qed.

(** Under exact arithmetic a record of the detector's frame is flagged
    [extreme_hot] exactly when the mean and the standard deviation of its
    station are defined and its [temperature_c] is strictly greater than
    mean plus two standard deviations, [extreme_cold] exactly when strictly
    less than mean minus two standard deviations; on either threshold it
    has neither flag. *)
Lemma exact_flags_are_strict (data : list Rec.t) (x : Flagged.t) :
  In x (flagged data) ->
  Flagged.mean x
  = mean (temps (station_rows (Rec.station_id (Flagged.base x)) data)) /\
  Flagged.std x
  = std (temps (station_rows (Rec.station_id (Flagged.base x)) data)) /\
  (Flagged.extreme_hot x = true <->
   exists m s, Flagged.mean x = Some m /\ Flagged.std x = Some s /\
     (Q2R (Rec.temperature_c (Flagged.base x)) > Q2R m + 2 * surd_R s)%R) /\
  (Flagged.extreme_cold x = true <->
   exists m s, Flagged.mean x = Some m /\ Flagged.std x = Some s /\
     (Q2R (Rec.temperature_c (Flagged.base x)) < Q2R m - 2 * surd_R s)%R) /\
  (forall m s, Flagged.mean x = Some m -> Flagged.std x = Some s ->
     (Q2R (Rec.temperature_c (Flagged.base x)) = Q2R m + 2 * surd_R s \/
      Q2R (Rec.temperature_c (Flagged.base x)) = Q2R m - 2 * surd_R s)%R ->
     Flagged.extreme_hot x = false /\ Flagged.extreme_cold x = false).
Proof.
  rewrite flagged_rows, in_map_iff. intros (r & <- & Hr).
  unfold flag, station_stat. cbn.
  set (g := temps (station_rows (Rec.station_id r) data)).
  pose proof (gt_mean_2std_spec (Rec.temperature_c r) g) as Hhot.
  pose proof (lt_mean_2std_spec (Rec.temperature_c r) g) as Hcold.
  split; [reflexivity|]. split; [reflexivity|].
  split; [exact Hhot|]. split; [exact Hcold|].
  intros m s Hm Hs Heq.
  pose proof (sqrt_pos (Q2R (radicand s))) as Hpos. unfold surd_R in *.
  split; apply not_true_is_false; intros E.
  - apply Hhot in E as (m' & s' & Hm' & Hs' & Hgt).
    rewrite Hm in Hm'. rewrite Hs in Hs'.
    injection Hm' as <-. injection Hs' as <-. destruct Heq; rlra.
  - apply Hcold in E as (m' & s' & Hm' & Hs' & Hlt).
    rewrite Hm in Hm'. rewrite Hs in Hs'.
    injection Hm' as <-. injection Hs' as <-. destruct Heq; rlra.
Qed.

(** ** Extreme Event Detector: the comparisons on doubles *)

Lemma SFcompare_antisym (a b : spec_float) (c : comparison) :
  SFcompare a b = Some c -> SFcompare b a = Some (CompOpp c).
Proof.
  destruct a as [sa|sa| |sa ma ea], b as [sb|sb| |sb mb eb]; cbn;
    try discriminate;
    try (destruct sa; intros [= <-]; reflexivity);
    try (destruct sb; intros [= <-]; reflexivity);
    try (destruct sa, sb; intros [= <-]; reflexivity).
  intros [= <-]. f_equal.
  assert (Pos.compare_cont Eq mb ma = CompOpp (Pos.compare_cont Eq ma mb)) as ->
    by (rewrite Pos.compare_cont_antisym; reflexivity).
  rewrite (Z.compare_antisym ea eb).
  destruct sa, sb; try reflexivity;
    destruct (ea ?= eb); cbn; try reflexivity;
    destruct (Pos.compare_cont Eq ma mb); reflexivity.
Qed.

(** The IEEE order is transitive. *)
Ltac SFcompare_cases a b c :=
  destruct a as [[]|[]| |[] ? ?], b as [[]|[]| |[] ? ?], c as [[]|[]| |[] ? ?];
  cbn; try (intuition congruence);
  repeat match goal with
  | |- context [Pos.compare_cont Eq ?p ?q] =>
      change (Pos.compare_cont Eq p q) with (Pos.compare p q)
  end;
  repeat match goal with
  | |- context [Z.compare ?p ?q] => destruct (Z.compare_spec p q)
  end; try lia; try (intuition congruence); subst;
  repeat match goal with
  | |- context [Pos.compare ?p ?q] => destruct (Pos.compare_spec p q)
  end; cbn; try lia; intuition congruence.

Lemma SFcompare_lt_le (a b c : spec_float) :
  SFcompare a b = Some Lt ->
  SFcompare b c = Some Lt \/ SFcompare b c = Some Eq ->
  SFcompare a c = Some Lt.
Proof. SFcompare_cases a b c. Qed.

Lemma SFcompare_le_lt (a b c : spec_float) :
  SFcompare a b = Some Lt \/ SFcompare a b = Some Eq ->
  SFcompare b c = Some Lt ->
  SFcompare a c = Some Lt.
Proof. SFcompare_cases a b c. Qed.

Lemma SFleb_le (a b : spec_float) :
  SFleb a b = true ->
  SFcompare a b = Some Lt \/ SFcompare a b = Some Eq.
Proof. unfold SFleb. destruct (SFcompare a b) as [[]|]; auto; discriminate. Qed.

Lemma SFeqb_eq (a b : spec_float) :
  SFeqb a b = true -> SFcompare a b = Some Eq /\ SFcompare b a = Some Eq.
Proof.
  unfold SFeqb. destruct (SFcompare a b) as [[]|] eqn:E; try discriminate.
  intros _. split; [reflexivity|]. apply (SFcompare_antisym _ _ _ E).
Qed.

Lemma SFmul_nan_r (a : spec_float) : (a * S754_nan)%f64 = S754_nan.
Proof. destruct a; reflexivity. Qed.

Lemma SFadd_nan_r (a : spec_float) : (a + S754_nan)%f64 = S754_nan.
Proof. destruct a as [[]|[]| |]; reflexivity. Qed.

Lemma SFsub_nan_r (a : spec_float) : (a - S754_nan)%f64 = S754_nan.
Proof. destruct a as [[]|[]| |]; reflexivity. Qed.

Lemma SFcompare_nan_r (a : spec_float) : SFcompare a S754_nan = None.
Proof. destruct a; reflexivity. Qed.

(** The standard deviation of fewer than two values is NaN. *)
Lemma std64_single (v : spec_float) : std64 [v] = S754_nan.
Proof. reflexivity. Qed.




(** Rounding separates the two readings at a station of constant
    temperature too.  Three records of 0.7 degrees have the exact mean 0.7
    and the exact deviation 0, and no flag under exact arithmetic; the
    computed mean is 0.6999999999999998, the computed deviation 0, and the
    records are flagged [extreme_hot]. *)
Lemma constant_station_is_flagged_on_doubles :
  map (fun x => Flagged.extreme_hot x || Flagged.extreme_cold x)
      (flagged constant_rows) = [false; false; false] /\
  mean64 (station_temps64 constant_rows "B")
  = S754_finite false 6305039478318693 (-53) /\
  celsius64 7 = S754_finite false 6305039478318694 (-53) /\
  std64 (station_temps64 constant_rows "B") = S754_zero false /\
  map (flags64 constant_rows) constant_rows
  = [(true, false); (true, false); (true, false)].
Proof. repeat split; vm_compute; reflexivity. Qed.

(** C6, amended: the standard deviation of a station with exactly one
    record is missing (the sample deviation divides by zero), its mean is
    the record's [temperature_c], and the record is in the detector's frame
    with neither flag, whatever its temperature. *)
Theorem single_record_station_is_never_extreme (data : list Rec.t) (r : Rec.t) :
  station_rows (Rec.station_id r) data = [r] ->
  In (Stats.mk (Rec.station_id r) (mean [Rec.temperature_c r]) None)
     (station_stats data) /\
  In (Flagged.mk (set_decade r) (mean [Rec.temperature_c r]) None false false)
     (flagged data) /\
  (forall x, In x (flagged data) ->
     Rec.station_id (Flagged.base x) = Rec.station_id r ->
     Flagged.std x = None /\
     Flagged.extreme_hot x = false /\ Flagged.extreme_cold x = false).
Proof.
  intros H.
  assert (In r data) as Hr.
  { assert (In r (station_rows (Rec.station_id r) data)) as Hin
      by (rewrite H; left; reflexivity).
    apply filter_In in Hin. tauto. }
  assert (station_stat data (Rec.station_id r)
          = Stats.mk (Rec.station_id r) (mean [Rec.temperature_c r]) None) as Hs.
  { unfold station_stat. rewrite H. reflexivity. }
  split; [|split].
  - rewrite <- Hs. unfold station_stats. apply in_map.
    apply In_station_levels. apply in_map. exact Hr.
  - rewrite flagged_rows. apply in_map_iff. exists r. split; [|exact Hr].
    rewrite Hs. reflexivity.
  - intros x Hx Hid. rewrite flagged_rows in Hx.
    apply in_map_iff in Hx as (r' & <- & Hr').
    cbn in Hid. rewrite Hid, Hs. cbn.
    destruct (mean [Rec.temperature_c r]); auto.
Qed.

(** ** Extreme Event Detector: the counts *)

Lemma count_true_nonneg (bs : list bool) : 0 <= count_true bs.
Proof.
  induction bs as [|b bs IH]; simpl; [lia|]. destruct b; lia.
Qed.

Lemma counts_bounded (g : list Flagged.t) :
  (forall x, In x g ->
     Flagged.extreme_hot x && Flagged.extreme_cold x = false) ->
  count_true (map Flagged.extreme_hot g) + count_true (map Flagged.extreme_cold g)
  <= Z.of_nat (List.length g).
Proof.
  induction g as [|x g IH]; intros H; [simpl; lia|].
  cbn [map count_true fold_right List.length].
  fold (count_true (map Flagged.extreme_hot g)).
  fold (count_true (map Flagged.extreme_cold g)).
  assert (Flagged.extreme_hot x && Flagged.extreme_cold x = false) as Hx
    by (apply H; left; reflexivity).
  assert (count_true (map Flagged.extreme_hot g)
          + count_true (map Flagged.extreme_cold g)
          <= Z.of_nat (List.length g)) as IH'
    by (apply IH; intros y Hy; apply H; right; exact Hy).
  destruct (Flagged.extreme_hot x), (Flagged.extreme_cold x);
    simpl in Hx; try discriminate; lia.
Qed.

Lemma flagged_exclusive (data : list Rec.t) (x : Flagged.t) :
  In x (flagged data) ->
  Flagged.extreme_hot x && Flagged.extreme_cold x = false.
Proof.
  unfold flagged. rewrite in_map_iff. intros (p & <- & _).
  unfold flag. cbn. apply flags_exclusive.
Qed.

(** The group of a (decade, region) cell in the detector's frame has one
    row per record of the cell. *)
Lemma flagged_cell_length (data : list Rec.t) (d : Z) (r : region_label) :
  List.length
    (List.filter
       (in_cell region_eqb (fun x => Rec.decade (Flagged.base x))
          (fun x => Rec.region (Flagged.base x)) d r)
       (flagged data))
  = List.length (decade_cell d r data).
Proof.
  rewrite flagged_rows, filter_map_comm, List.length_map. reflexivity.
Qed.


(** ** Result Store *)

Lemma required_file_of_stem (file name : string) :
  In file required_files -> stem file = name -> file = (name ++ ".csv")%string.
Proof.
  unfold required_files.
  intros H <-. simpl in H.
  repeat (destruct H as [<- | H]; [reflexivity|]). contradiction.
Qed.

(** The dictionary has no entry for a table whose file is not there. *)
Lemma collect_results_absent (w : world) (name : string) :
  results_dir w !! (name ++ ".csv")%string = None ->
  collect_results w !! name = None.
Proof.
  intros Hfile. unfold collect_results.
  assert (forall files (acc : gmap string table),
            acc !! name = None ->
            (forall file, In file files -> In file required_files) ->
            fold_left
              (fun results file =>
                 match results_dir w !! file with
                 | Some t => <[stem file := t]> results
                 | None => results
                 end) files acc !! name = None) as H.
  { induction files as [|file files IH]; intros acc Hacc Hreq; [exact Hacc|].
    simpl. apply IH; [|intros x Hx; apply Hreq; right; exact Hx].
    destruct (results_dir w !! file) as [t|] eqn:E; [|exact Hacc].
    rewrite lookup_insert_ne; [exact Hacc|].
    intros Hstem.
    rewrite (required_file_of_stem file name) in E;
      [congruence|apply Hreq; left; reflexivity|exact Hstem]. }
  apply H; [apply lookup_empty|auto].
Qed.

(** C9, amended: asking for a table whose file is not in the results
    directory fails, whatever the name, and no table is returned; the
    failure is Python's [FileNotFoundError], raised by [load_results], when
    no result file is there at all, and otherwise the [KeyError] of the
    consumer's lookup in the dictionary [load_results] has returned.  The
    scripts define no error of their own. *)
Theorem missing_table_is_an_error (w : world) (name : string) :
  results_dir w !! (name ++ ".csv")%string = None ->
  get_table name w
  = inl (if (size (collect_results w) =? 0)%nat then FileNotFoundError
         else KeyError name).
Proof.
  intros H. unfold get_table, load_results.
  destruct (size (collect_results w) =? 0)%nat; [reflexivity|].
  rewrite (collect_results_absent w name H). reflexivity.
Qed.

Lemma missing_table_is_an_error_witness :
  results_dir empty_world !! "extreme_counts.csv"%string = None /\
  get_table "extreme_counts" empty_world = inl FileNotFoundError.
Proof.
  split; [reflexivity|].
  apply (missing_table_is_an_error empty_world "extreme_counts"). reflexivity.
Defined.

(** Before any run the store is empty and every request fails. *)
Lemma no_results_is_file_not_found (w : world) (name : string) :
  results_dir w = ∅ -> get_table name w = inl FileNotFoundError.
Proof.
  intros H. unfold get_table, load_results, collect_results. rewrite H.
  reflexivity.
Qed.

(** ** Loader *)

Ltac run :=
  unfold mbind, M_bind, mret, M_ret, catch, raise, deref, update, alloc,
    to_results, set_heap, set_data_dir, set_results_dir; cbn.

Lemma create_sample_data_returns (st : frame) (sm : list Station.t) (w : world) :
  create_sample_data st sm w
  = (World (heap w ++ [st])
       (DataFiles (ghcnm_data (data_dir w)) (Some st) (Some sm))
       (results_dir w) (remote w),
     inr (List.length (heap w), sm)).
Proof. reflexivity. Qed.

(** [download_data] never raises: a failed request is answered by the
    sample generator. *)
Lemma download_data_returns (st : frame) (sm : list Station.t) (w : world) :
  exists w', download_data st sm w = (w', inr tt) /\
    (forall body, remote w = Some (200, body) ->
       data_dir w'
       = DataFiles (Some body) (temperature_data (data_dir w))
           (station_metadata (data_dir w))) /\
    ((forall body, remote w <> Some (200, body)) ->
       data_dir w' = DataFiles (ghcnm_data (data_dir w)) (Some st) (Some sm)).
Proof.
  unfold download_data, requests_get, create_sample_data, save_archive,
    save_station_metadata, save_temperature_data. run.
  destruct (remote w) as [[status body]|] eqn:E; cbn.
  - destruct (status =? 200) eqn:Es; cbn.
    + apply Z.eqb_eq in Es. subst. eexists. split; [reflexivity|].
      split; [intros b [= <-]; reflexivity|].
      intros H. exfalso. apply (H body). reflexivity.
    + apply Z.eqb_neq in Es. eexists. split; [reflexivity|].
      split; [intros b [= -> _]; congruence|reflexivity].
  - eexists. split; [reflexivity|].
    split; [intros b [=]|reflexivity].
Qed.

(** X21: when a data file is missing, [load_data] does not fail: it runs
    the sample generator, which writes both data files, and returns the
    generated tables; and [download_data] returns normally whatever the
    remote source answers.  The scripts have no switch for the generator
    and no error for data that cannot be had. *)
Theorem loader_substitutes_sample_data
    (st : frame) (sm : list Station.t) (w : world) :
  temperature_data (data_dir w) = None \/ station_metadata (data_dir w) = None ->
  load_data st sm w
  = (World (heap w ++ [st])
       (DataFiles (ghcnm_data (data_dir w)) (Some st) (Some sm))
       (results_dir w) (remote w),
     inr (List.length (heap w), sm)) /\
  exists w', download_data st sm w = (w', inr tt).
Proof.
  intros H. split.
  - unfold load_data.
    destruct H as [-> | H].
    + apply create_sample_data_returns.
    + rewrite H. destruct (temperature_data (data_dir w));
        apply create_sample_data_returns.
  - destruct (download_data_returns st sm w) as (w' & Hw & _). eauto.
Qed.

Lemma loader_substitutes_sample_data_witness :
  load_data example_temperature [station_a; station_b] empty_world
  = (World [example_temperature]
       (DataFiles None (Some example_temperature) (Some [station_a; station_b]))
       ∅ None,
     inr (0%nat, [station_a; station_b])) /\
  exists w', download_data example_temperature [station_a; station_b] empty_world
             = (w', inr tt).
Proof.
  apply (loader_substitutes_sample_data example_temperature
           [station_a; station_b] empty_world).
  left. reflexivity.
Defined.

(** ** In-place assignments of the stages *)

Lemma mapM_map {A B C} (g : B -> option C) (h : A -> B) (l : list A) :
  mapM g (map h l) = mapM (fun a => g (h a)) l.
Proof.
  induction l as [|a l IH]; [reflexivity|].
  simpl. rewrite IH. reflexivity.
Qed.

Ltac step :=
  cbn beta iota zeta delta
    [heap set_heap data_dir results_dir remote set_results_dir set_data_dir
     to_results mret M_ret raise fst snd].

Lemma trends_assign_decade (w : world) (data : nat) (f : frame) :
  heap w !! data = Some f ->
  exists res rd,
    analyze_temperature_trends data w
    = (World (<[data := assign "decade" set_decade f]> (heap w))
         (data_dir w) rd (remote w),
       inr res).
Proof.
  intros H. pose proof (lookup_lt_Some _ _ _ H) as Hlt.
  unfold analyze_temperature_trends, mbind, M_bind, deref, update.
  rewrite H. step. rewrite H. step.
  rewrite list_lookup_insert_eq by exact Hlt. step.
  do 2 eexists. reflexivity.
Qed.

Lemma detector_leaves_heap (w : world) (data : nat) (f : frame) :
  heap w !! data = Some f ->
  exists res rd,
    analyze_extreme_temperatures data w
    = (World (heap w) (data_dir w) rd (remote w), inr res).
Proof.
  intros H.
  unfold analyze_extreme_temperatures, mbind, M_bind, deref.
  rewrite H. step. do 2 eexists. reflexivity.
Qed.

Lemma assign_decade_keeps_other_columns (f : frame) :
  map (fun r => Rec.with_decade r 0) (rows (assign "decade" set_decade f))
  = map (fun r => Rec.with_decade r 0) (rows f).
Proof. unfold assign. cbn [rows]. rewrite map_map. reflexivity. Qed.

Lemma enricher_assigns_in_place
    (to_datetime : Z -> Z -> option timestamp)
    (w : world) (temp_df : nat) (f : frame) (stations : list Station.t)
    (dates : list timestamp) :
  heap w !! temp_df = Some f ->
  mapM (fun r => to_datetime (Rec.year r) (Rec.month r)) (rows f) = Some dates ->
  preprocess_data to_datetime temp_df stations w
  = (World
       (<[temp_df := enriched_temp_df dates f]> (heap w)
        ++ [assign "region" cut_region
              (merge_metadata (enriched_temp_df dates f) stations)])
       (data_dir w) (results_dir w) (remote w),
     inr (List.length (heap w))).
Proof.
  intros H Hd. pose proof (lookup_lt_Some _ _ _ H) as Hlt.
  unfold preprocess_data, mbind, M_bind, deref, update, alloc.
  rewrite H. step. rewrite list_lookup_insert_eq by exact Hlt. step.
  unfold assign at 1. cbn [rows]. rewrite mapM_map.
  cbn [Rec.year Rec.month Rec.with_temperature_c].
  rewrite Hd. step.
  repeat (rewrite list_lookup_insert_eq by (rewrite ?length_insert; exact Hlt);
          step; rewrite ?list_insert_insert_eq).
  rewrite list_lookup_middle by reflexivity. step.
  rewrite insert_app_r_alt by lia. rewrite Nat.sub_diag. cbn [insert list_insert].
  rewrite length_insert. reflexivity.
Qed.

(** A date that does not assemble stops the Enricher after its first
    assignment: the temperature table keeps the new [temperature_c]. *)
Lemma enricher_raises_after_first_assignment
    (to_datetime : Z -> Z -> option timestamp)
    (w : world) (temp_df : nat) (f : frame) (stations : list Station.t) :
  heap w !! temp_df = Some f ->
  mapM (fun r => to_datetime (Rec.year r) (Rec.month r)) (rows f) = None ->
  preprocess_data to_datetime temp_df stations w
  = (World
       (<[temp_df := assign "temperature_c"
                       (fun r => Rec.with_temperature_c r (celsius (Rec.temperature r)))
                       f]> (heap w))
       (data_dir w) (results_dir w) (remote w),
     inl ValueError).
Proof.
  intros H Hd. pose proof (lookup_lt_Some _ _ _ H) as Hlt.
  unfold preprocess_data, mbind, M_bind, deref, update, alloc.
  rewrite H. step. rewrite list_lookup_insert_eq by exact Hlt. step.
  unfold assign at 1. cbn [rows]. rewrite mapM_map.
  cbn [Rec.year Rec.month Rec.with_temperature_c].
  rewrite Hd. reflexivity.
Qed.

(** C7, amended: the Extreme Event Detector leaves every object as it was,
    so the enriched record set is the same before and after it.  The Trend
    Aggregator assigns the column [decade] into the enriched record set it
    is given, and the Enricher assigns [temperature_c], [date] and [season]
    into the temperature table it is given and puts the enriched set in a
    new object; both change their input in place, in those columns only,
    and no other object. *)
Theorem stages_assign_columns_in_place
    (to_datetime : Z -> Z -> option timestamp)
    (w : world) (data : nat) (f : frame) :
  heap w !! data = Some f ->
  ((heap (fst (analyze_extreme_temperatures data w)) = heap w) /\
   exists res, snd (analyze_extreme_temperatures data w) = inr res) /\
  ((heap (fst (analyze_temperature_trends data w))
    = <[data := assign "decade" set_decade f]> (heap w)) /\
   (exists res, snd (analyze_temperature_trends data w) = inr res) /\
   (columns (assign "decade" set_decade f) = add_column "decade" (columns f)) /\
   (map (fun r => Rec.with_decade r 0) (rows (assign "decade" set_decade f))
    = map (fun r => Rec.with_decade r 0) (rows f))) /\
  (forall stations dates,
     mapM (fun r => to_datetime (Rec.year r) (Rec.month r)) (rows f)
     = Some dates ->
     heap (fst (preprocess_data to_datetime data stations w))
     = (<[data := enriched_temp_df dates f]> (heap w))
       ++ [assign "region" cut_region
             (merge_metadata (enriched_temp_df dates f) stations)]).
Proof.
  intros H. split; [|split].
  - destruct (detector_leaves_heap w data f H) as (res & rd & ->). simpl. eauto.
  - destruct (trends_assign_decade w data f H) as (res & rd & ->). simpl.
    split; [reflexivity|]. split; [eauto|]. split; [reflexivity|].
    apply assign_decade_keeps_other_columns.
  - intros stations dates Hd.
    rewrite (enricher_assigns_in_place to_datetime w data f stations dates H Hd).
    reflexivity.
Qed.

Lemma stages_assign_columns_in_place_witness :
  heap example_world !! 0%nat = Some example_frame /\
  heap (fst (analyze_extreme_temperatures 0 example_world)) = heap example_world /\
  heap (fst (analyze_temperature_trends 0 example_world))
  = [assign "decade" set_decade example_frame].
Proof.
  destruct (stages_assign_columns_in_place example_to_datetime example_world
              0%nat example_frame eq_refl)
    as ((Hd & _) & (Ht & _) & _).
  split; [reflexivity|]. split; [exact Hd|exact Ht].
Defined.

(** C7 as stated fails on the Trend Aggregator: after it has run, the
    enriched record set carries a column it did not carry before. *)
Lemma trend_aggregator_changes_its_input :
  option_map columns (heap (fst (analyze_temperature_trends 0 example_world)) !! 0%nat)
  <> option_map columns (heap example_world !! 0%nat).
Proof. vm_compute. discriminate. Qed.

(** ** The theorems at the small data set *)

Lemma missing_baseline_depends_on_observed_witness :
  (exists t, In (Regional.mk 1962 Northern t None None)
                (annual_regional_avg_with false example_rows)) /\
  (exists t, In (Regional.mk 1995 Northern t None None)
                (annual_regional_avg_with false example_rows)) /\
  (forall row, In row (annual_regional_avg_with true example_rows) ->
     Regional.region row <> Northern).
Proof.
  assert (forall x, In x example_rows -> Rec.region x = Some Northern ->
            baseline_period (Rec.year x) = false) as Hpremise.
  { intros x Hx Hr. simpl in Hx.
    repeat (destruct Hx as [<- | Hx];
            [first [reflexivity | vm_compute in Hr; discriminate Hr]|]).
    contradiction. }
  destruct (missing_baseline_depends_on_observed example_rows Northern Hpremise)
    as ((Hyears & _) & Hdropped).
  split; [apply Hyears; simpl; auto|].
  split; [apply Hyears; simpl; auto|exact Hdropped].
Defined.

Lemma global_anomaly_mean_is_zero_witness :
  example_rows <> [] /\
  exists (means : list (Z * Q)) (reference : Q),
    map fst means = [1962; 1995] /\
    (reference
     == fold_right Qplus 0 (map snd means)
        / inject_Z (Z.of_nat (List.length means)))%Q /\
    annual_global_avg example_rows
    = map (fun p =>
             Global.mk (fst p) (Some (snd p)) (Some (snd p - reference)%Q))
          means.
Proof.
  assert (example_rows <> []) as Hne by discriminate.
  split; [exact Hne|].
  destruct (global_anomaly_mean_is_zero example_rows Hne)
    as (means & reference & _ & _ & _ & _ & Href & Htable & _).
  exists means, reference. split; [|split; [exact Href|exact Htable]].
  assert (map Global.year (annual_global_avg example_rows) = [1962; 1995])
    as Hyears by reflexivity.
  rewrite Htable, map_map in Hyears. exact Hyears.
Defined.

Lemma single_record_station_is_never_extreme_witness :
  station_rows "A" example_rows = [example_record station_a 1995 1 215] /\
  In (Flagged.mk (set_decade (example_record station_a 1995 1 215))
        (mean [21.5%Q]) None false false)
     (flagged example_rows).
Proof.
  assert (station_rows (Rec.station_id (example_record station_a 1995 1 215))
            example_rows
          = [example_record station_a 1995 1 215]) as H by reflexivity.
  split; [exact H|].
  destruct (single_record_station_is_never_extreme example_rows _ H)
    as (_ & Hin & _).
  exact Hin.
Defined.

(** C6 as stated fails at the one-record station of the small data set:
    its standard deviation is missing, it is not zero. *)
Lemma single_record_std_is_not_zero :
  station_rows "A" example_rows = [example_record station_a 1995 1 215] /\
  ~ (exists s, Stats.std (station_stat example_rows "A") = Some s /\
               (radicand s == 0)%Q).
Proof.
  split; [reflexivity|]. intros (s & H & _). discriminate H.
Qed.

(** ** A run of the whole pipeline *)

(** From nothing on disk and no remote source, [run_analysis] returns and
    leaves all six tables in the store. *)
Lemma example_run_fills_the_store :
  forallb
    (fun name =>
       match get_table name
               (fst (run_analysis example_to_datetime example_temperature
                       [station_a; station_b] empty_world)) with
       | inr _ => true
       | inl _ => false
       end)
    (map stem required_files) = true.
Proof. vm_compute. reflexivity. Qed.

(** The saved enriched table carries [decade]: the column the Trend
    Aggregator assigned in place. *)
Lemma example_run_saves_decade :
  match get_table "processed_data"
          (fst (run_analysis example_to_datetime example_temperature
                  [station_a; station_b] empty_world)) with
  | inr (Readings f) => existsb (String.eqb "decade") (columns f)
  | _ => false
  end = true.
Proof. vm_compute. reflexivity. Qed.

(** C9 as stated fails with another table in the store: [load_results]
    raises nothing and returns a dictionary without the table, and the
    request ends in the [KeyError] of the lookup. *)
Lemma load_results_returns_without_the_table :
  results_dir partial_store !! "decadal_avg.csv"%string = None /\
  (exists results,
     load_results partial_store = inr results /\
     results !! "decadal_avg"%string = None) /\
  get_table "decadal_avg" partial_store = inl (KeyError "decadal_avg").
Proof.
  split; [reflexivity|]. split; [|vm_compute; reflexivity].
  eexists. split; [reflexivity|]. vm_compute. reflexivity.
Qed.

(** * Further properties of the pipeline *)

(** ** Decades *)

(** X1: the decade of a year is the multiple of ten at or below it, less
    than ten years away, for years before the common era too: it is the
    only [d] with [d mod 10 = 0] and [d <= year < d + 10]. *)
Theorem decade_is_the_ten_year_floor (year d : Z) :
  decade_of_year year = d <-> d mod 10 = 0 /\ d <= year < d + 10.
Proof.
  unfold decade_of_year. split.
  - intros <-. split; [apply Z.mod_mul; lia|].
    pose proof (Z.div_mod year 10 ltac:(lia)) as Hdm.
    pose proof (Z.mod_pos_bound year 10 ltac:(lia)) as Hb. lia.
  - intros [Hm Hb].
    apply Z.mod_divide in Hm; [|lia]. destruct Hm as [k ->].
    rewrite (Z.div_unique year 10 k (year - k * 10)); lia.
Qed.

(** ** Regions *)

(** X2: a latitude gets no region exactly when it is at or below -90 or
    above 90; the lowest edge itself is in no bin. *)
Theorem region_missing_outside_the_bins (lat : Q) :
  region_of_latitude lat = None <-> (lat <= -90)%Q \/ (90 < lat)%Q.
Proof.
  split.
  - unfold region_of_latitude, cut. cbn [searchsorted_left andb].
    destruct (Qltb (-90) lat) eqn:E0; edge E0; [|left; exact E0].
    destruct (Qltb (-60) lat) eqn:E1; edge E1; [|discriminate].
    destruct (Qltb (-30) lat) eqn:E2; edge E2; [|discriminate].
    destruct (Qltb 0 lat) eqn:E3; edge E3; [|discriminate].
    destruct (Qltb 30 lat) eqn:E4; edge E4; [|discriminate].
    destruct (Qltb 60 lat) eqn:E5; edge E5; [|discriminate].
    destruct (Qltb 90 lat) eqn:E6; edge E6; [right; exact E6|discriminate].
  - unfold region_of_latitude, cut. cbn [searchsorted_left andb].
    intros [H|H].
    + destruct (Qltb (-90) lat) eqn:E0; edge E0; [exfalso; qlra|reflexivity].
    + destruct (Qltb (-90) lat) eqn:E0; edge E0; [|reflexivity].
      destruct (Qltb (-60) lat) eqn:E1; edge E1; [|exfalso; qlra].
      destruct (Qltb (-30) lat) eqn:E2; edge E2; [|exfalso; qlra].
      destruct (Qltb 0 lat) eqn:E3; edge E3; [|exfalso; qlra].
      destruct (Qltb 30 lat) eqn:E4; edge E4; [|exfalso; qlra].
      destruct (Qltb 60 lat) eqn:E5; edge E5; [|exfalso; qlra].
      destruct (Qltb 90 lat) eqn:E6; edge E6; [reflexivity|exfalso; qlra].
Qed.

(** ** Enricher: the join with the station metadata *)

Lemma unique_key_at_most_once {A} (key : A -> string) (k : string) (l : list A) :
  List.NoDup (map key l) ->
  (List.length (List.filter (fun a => String.eqb (key a) k) l) <= 1)%nat.
Proof.
  induction l as [|a l IH]; simpl; [lia|].
  intros Hnd. inversion Hnd as [|? ? Hnotin Hnd']; subst.
  destruct (String.eqb (key a) k) eqn:E; [|auto].
  apply String.eqb_eq in E. subst k. simpl.
  replace (List.filter (fun b => String.eqb (key b) (key a)) l) with (@nil A);
    [simpl; lia|].
  symmetry. apply filter_nil_iff. intros x Hx.
  apply String.eqb_neq. intros Heq. apply Hnotin. rewrite <- Heq.
  apply in_map. exact Hx.
Qed.

Lemma In_merge_metadata (f : frame) (ms : list Station.t) (r : Rec.t) :
  In r (rows (merge_metadata f ms)) <->
  exists x st, In x (rows f) /\ In st ms /\
               Station.station_id st = Rec.station_id x /\
               r = Rec.with_meta x st.
Proof.
  unfold merge_metadata. cbn [rows]. rewrite in_flat_map. split.
  - intros (x & Hx & Hr). apply in_map_iff in Hr as (st & <- & Hst).
    apply filter_In in Hst as [Hst Hid]. apply String.eqb_eq in Hid.
    exists x, st. auto.
  - intros (x & st & Hx & Hst & Hid & ->). exists x. split; [exact Hx|].
    apply in_map. apply filter_In. split; [exact Hst|].
    apply String.eqb_eq. exact Hid.
Qed.

Lemma rows_merge_metadata (f : frame) (ms : list Station.t) :
  rows (merge_metadata f ms)
  = flat_map (fun r => map (Rec.with_meta r) (metadata_of ms r)) (rows f).
Proof. reflexivity. Qed.

Lemma join_lengths (ms : list Station.t) (l : list Rec.t) :
  List.NoDup (map Station.station_id ms) ->
  List.length (flat_map (fun r => map (Rec.with_meta r) (metadata_of ms r)) l)
  = List.length (List.filter (has_metadata ms) l) /\
  List.length l
  = (List.length (List.filter (has_metadata ms) l)
     + List.length (List.filter (fun r => negb (has_metadata ms r)) l))%nat.
Proof.
  intros Hnd. induction l as [|r l [IH1 IH2]]; [split; reflexivity|].
  cbn [flat_map List.filter]. rewrite List.length_app, List.length_map, IH1.
  pose proof (unique_key_at_most_once Station.station_id (Rec.station_id r)
                ms Hnd) as Hle.
  fold (metadata_of ms r) in Hle.
  assert (has_metadata ms r = negb (is_nil (metadata_of ms r))) as Hh
    by reflexivity.
  destruct (metadata_of ms r) as [|st [|st' rest]]; cbn in Hh, Hle |- *;
    rewrite Hh; cbn [negb List.length]; split; lia.
Qed.

(** X3: the join of the temperature table with the station metadata is an
    inner join.  A row of the result is a record together with a metadata
    row of its station; with station identifiers unique in the metadata,
    the result has one row for each record whose station has metadata, and
    the records it lacks are exactly those whose station has none. *)
Theorem inner_join_drops_records_without_metadata
    (f : frame) (ms : list Station.t) :
  List.NoDup (map Station.station_id ms) ->
  (forall r, In r (rows (merge_metadata f ms)) <->
     exists x st, In x (rows f) /\ In st ms /\
                  Station.station_id st = Rec.station_id x /\
                  r = Rec.with_meta x st) /\
  List.length (rows (merge_metadata f ms))
  = List.length (List.filter (has_metadata ms) (rows f)) /\
  List.length (rows f)
  = (List.length (rows (merge_metadata f ms))
     + List.length (List.filter (fun r => negb (has_metadata ms r)) (rows f)))%nat.
Proof.
  intros Hnd. split; [intros r; apply In_merge_metadata|].
  destruct (join_lengths ms (rows f) Hnd) as [H1 H2].
  change (rows (merge_metadata f ms))
    with (flat_map (fun r => map (Rec.with_meta r) (metadata_of ms r)) (rows f)).
  split; [exact H1|]. rewrite H1. exact H2.
Qed.

(** ** Enricher: the whole stage *)

Lemma mapM_cons_Some {A B} (phi : A -> option B) (a : A) (l : list A)
    (k : list B) :
  mapM phi (a :: l) = Some k ->
  exists b k', phi a = Some b /\ mapM phi l = Some k' /\ k = b :: k'.
Proof.
  cbn. destruct (phi a) as [b|]; cbn; [|discriminate].
  destruct (mapM phi l) as [k'|]; cbn; [|discriminate].
  intros [= <-]. eauto.
Qed.

Lemma In_zip_with_mapM {A B C} (phi : A -> option B) (g : A -> B -> C)
    (l : list A) (k : list B) (y : C) :
  mapM phi l = Some k ->
  In y (zip_with g l k) <-> exists a b, In a l /\ phi a = Some b /\ y = g a b.
Proof.
  revert k. induction l as [|a l IH]; intros k Hk.
  - cbn. split; [contradiction|]. intros (a & b & [] & _).
  - apply mapM_cons_Some in Hk as (b & k' & Hb & Hk' & ->). cbn.
    rewrite (IH k' Hk'). split.
    + intros [<- | (a' & b' & Ha & Hb' & ->)].
      * exists a, b. auto.
      * exists a', b'. auto.
    + intros (a' & b' & [<- | Ha] & Hb' & ->).
      * left. congruence.
      * right. eauto.
Qed.

Lemma zip_with_map_l {A A' B C} (g : A' -> B -> C) (h : A -> A')
    (l : list A) (k : list B) :
  zip_with g (map h l) k = zip_with (fun a b => g (h a) b) l k.
Proof.
  revert k. induction l as [|a l IH]; intros [|b k]; cbn; try reflexivity.
  rewrite IH. reflexivity.
Qed.

Lemma enriched_record_steps (x : Rec.t) (d : timestamp) (st : Station.t) :
  cut_region
    (Rec.with_meta
       (december_is_winter
          (cut_season
             (Rec.with_date
                (Rec.with_temperature_c x (celsius (Rec.temperature x))) d)))
       st)
  = enriched_record x d st.
Proof.
  unfold cut_region, december_is_winter, cut_season, enriched_record,
    season_of_month. cbn.
  destruct (Rec.month x =? 12); reflexivity.
Qed.

(** X4: when every date assembles, the Enricher returns a new table whose
    rows are exactly the records of the temperature table that have station
    metadata, each with [temperature_c = temperature / 10], its assembled
    date, the season of its month, the metadata of its station and the
    region of the station's latitude; its columns are those of the
    temperature table followed by the derived and the metadata columns. *)
Theorem enricher_builds_the_enriched_table
    (to_datetime : Z -> Z -> option timestamp)
    (w : world) (temp_df : nat) (f : frame) (stations : list Station.t)
    (dates : list timestamp) :
  heap w !! temp_df = Some f ->
  mapM (fun r => to_datetime (Rec.year r) (Rec.month r)) (rows f) = Some dates ->
  exists w' d,
    preprocess_data to_datetime temp_df stations w
    = (w', inr (List.length (heap w))) /\
    heap w' !! List.length (heap w) = Some d /\
    columns d = enriched_columns (columns f) /\
    forall r, In r (rows d) <->
      exists x date st,
        In x (rows f) /\
        to_datetime (Rec.year x) (Rec.month x) = Some date /\
        In st stations /\ Station.station_id st = Rec.station_id x /\
        r = enriched_record x date st.
Proof.
  intros H Hd.
  rewrite (enricher_assigns_in_place to_datetime w temp_df f stations dates H Hd).
  do 2 eexists. split; [reflexivity|]. cbn [heap].
  split.
  { apply list_lookup_middle. rewrite length_insert. reflexivity. }
  split.
  { unfold enriched_columns, enriched_temp_df, assign, assign_cells,
      merge_metadata. cbn [columns].
    replace (add_column "season" (add_column "season"
               (add_column "date" (add_column "temperature_c" (columns f)))))
      with (add_column "season"
              (add_column "date" (add_column "temperature_c" (columns f))));
      [reflexivity|].
    generalize (add_column "date" (add_column "temperature_c" (columns f))).
    intros cs. unfold add_column at 2 3.
    destruct (existsb (String.eqb "season") cs) eqn:E.
    - unfold add_column. rewrite E. reflexivity.
    - unfold add_column. rewrite existsb_app, E. cbn. reflexivity. }
  intros r. unfold assign at 1. cbn [rows]. rewrite in_map_iff. split.
  - intros (y & <- & Hy). apply In_merge_metadata in Hy
      as (z & st & Hz & Hst & Hid & ->).
    unfold enriched_temp_df, assign, assign_cells in Hz. cbn [rows] in Hz.
    rewrite map_map, in_map_iff in Hz. destruct Hz as (u & <- & Hu).
    rewrite zip_with_map_l in Hu.
    apply (In_zip_with_mapM _ _ _ _ _ Hd) in Hu as (x & date & Hx & Hdate & ->).
    exists x, date, st. rewrite enriched_record_steps.
    repeat split; try assumption.
    rewrite Hid. unfold december_is_winter, cut_season. cbn.
    destruct (Rec.month x =? 12); reflexivity.
  - intros (x & date & st & Hx & Hdate & Hst & Hid & ->).
    exists (Rec.with_meta
              (december_is_winter
                 (cut_season
                    (Rec.with_date
                       (Rec.with_temperature_c x (celsius (Rec.temperature x)))
                       date)))
              st).
    split; [apply enriched_record_steps|].
    apply In_merge_metadata. do 2 eexists. split; [|split; [exact Hst|split; [|reflexivity]]].
    + unfold enriched_temp_df, assign, assign_cells. cbn [rows].
      rewrite map_map, in_map_iff. eexists. split; [reflexivity|].
      rewrite zip_with_map_l.
      apply (In_zip_with_mapM _ _ _ _ _ Hd). exists x, date. auto.
    + rewrite Hid. unfold december_is_winter, cut_season. cbn.
      destruct (Rec.month x =? 12); reflexivity.
Qed.

(** X5: the Enricher fails only when the date of some record does not
    assemble, and then with [ValueError]; by then it has assigned
    [temperature_c] into the temperature table, which keeps that column,
    and it has created no enriched table. *)
Theorem enricher_fails_on_a_bad_date_after_one_assignment
    (to_datetime : Z -> Z -> option timestamp)
    (w : world) (temp_df : nat) (f : frame) (stations : list Station.t) :
  heap w !! temp_df = Some f ->
  ((exists r, In r (rows f) /\ to_datetime (Rec.year r) (Rec.month r) = None) <->
   exists e, snd (preprocess_data to_datetime temp_df stations w) = inl e) /\
  (forall e, snd (preprocess_data to_datetime temp_df stations w) = inl e ->
     e = ValueError /\
     heap (fst (preprocess_data to_datetime temp_df stations w))
     = <[temp_df := assign "temperature_c"
                      (fun r => Rec.with_temperature_c r (celsius (Rec.temperature r)))
                      f]> (heap w)).
Proof.
  intros H.
  destruct (mapM (fun r => to_datetime (Rec.year r) (Rec.month r)) (rows f))
    as [dates|] eqn:Hd.
  - rewrite (enricher_assigns_in_place to_datetime w temp_df f stations dates H Hd).
    cbn [snd]. split.
    + split.
      * intros (r & Hr & Hnone). exfalso.
        assert (is_Some (mapM (fun r => to_datetime (Rec.year r) (Rec.month r))
                           (rows f))) as Hsome by (rewrite Hd; eauto).
        apply mapM_is_Some_1 in Hsome. rewrite List.Forall_forall in Hsome.
        destruct (Hsome r Hr) as [d Hsome']. cbn in Hsome'. congruence.
      * intros [e He]. discriminate He.
    + intros e He. discriminate He.
  - rewrite (enricher_raises_after_first_assignment to_datetime w temp_df f
               stations H Hd).
    cbn [snd fst heap]. split.
    + split; [eauto|]. intros _. apply mapM_None_1 in Hd.
      apply List.Exists_exists in Hd. exact Hd.
    + intros e [= <-]. auto.
Qed.

(** ** Trend Aggregator: the keys of the tables *)

Lemma sorted_is_NoDup {K} (lt : K -> K -> Prop) (l : list K) :
  (forall a, ~ lt a a) -> StronglySorted lt l -> List.NoDup l.
Proof.
  intros Hirr. induction 1 as [|h t Hs IH Hall]; constructor; [|exact IH].
  rewrite List.Forall_forall in Hall. intros Hin.
  apply (Hirr h). apply Hall. exact Hin.
Qed.

Lemma year_levels_NoDup (ks : list Z) : List.NoDup (year_levels ks).
Proof.
  apply (sorted_is_NoDup Z.lt); [intros a; lia|apply year_levels_sorted].
Qed.

Lemma NoDup_list_prod {A B} (l1 : list A) (l2 : list B) :
  List.NoDup l1 -> List.NoDup l2 -> List.NoDup (list_prod l1 l2).
Proof.
  intros H1 H2. induction H1 as [|a l1 Ha H1 IH]; cbn; [constructor|].
  apply List.NoDup_app.
  - clear -H2. induction H2 as [|b l2 Hb H2 IH]; cbn; constructor; [|exact IH].
    intros Hin. apply in_map_iff in Hin as (b' & [= <-] & Hb'). contradiction.
  - exact IH.
  - intros [a' b'] Hin Hin'. apply in_map_iff in Hin as (b'' & [= <- <-] & _).
    apply in_prod_iff in Hin' as [Hin' _]. contradiction.
Qed.

Lemma region_categories_NoDup : List.NoDup region_categories.
Proof.
  unfold region_categories.
  repeat (constructor; [cbn; intuition discriminate|]). constructor.
Qed.

(** X6: the global annual table has exactly one row for each year of the
    data, in increasing order of the year. *)
Theorem global_table_is_keyed_by_year (data : list Rec.t) :
  StronglySorted Z.lt (map Global.year (annual_global_avg data)) /\
  forall y, In y (map Global.year (annual_global_avg data)) <->
            In y (map Rec.year data).
Proof.
  assert (map Global.year (annual_global_avg data)
          = year_levels (map Rec.year data)) as Hk.
  { unfold annual_global_avg, global_means, groupby_key.
    rewrite !map_map. cbn. apply map_id. }
  rewrite Hk. split; [apply year_levels_sorted|].
  intros y. apply In_year_levels.
Qed.

Lemma regional_means_keys (data : list Rec.t) :
  map (fun m => (RegionalMean.year m, RegionalMean.region m))
      (regional_means false data)
  = list_prod (year_levels (map Rec.year data)) region_categories.
Proof.
  unfold regional_means, groupby_key_cat. rewrite !map_map. cbn.
  rewrite <- (map_id (list_prod _ _)) at 2. apply map_ext. intros [y r].
  reflexivity.
Qed.

(** X7: the regional annual table is keyed by (year, region): no two rows
    share a key, there is a row for a key exactly when the year occurs in
    the data, whatever the region, and so the table has six rows for every
    year of the data. *)
Theorem regional_table_is_keyed_by_year_and_region (data : list Rec.t) :
  List.NoDup
    (map (fun row => (Regional.year row, Regional.region row))
         (annual_regional_avg data)) /\
  (forall y r,
     In (y, r) (map (fun row => (Regional.year row, Regional.region row))
                    (annual_regional_avg data)) <->
     In y (map Rec.year data)) /\
  List.length (annual_regional_avg data)
  = (6 * List.length (year_levels (map Rec.year data)))%nat.
Proof.
  assert (map (fun row => (Regional.year row, Regional.region row))
              (annual_regional_avg data)
          = list_prod (year_levels (map Rec.year data)) region_categories) as Hk.
  { rewrite annual_regional_avg_rows, map_map. cbn.
    apply regional_means_keys. }
  split; [|split].
  - rewrite Hk. apply NoDup_list_prod;
      [apply year_levels_NoDup|apply region_categories_NoDup].
  - intros y r. rewrite Hk, in_prod_iff, In_year_levels.
    pose proof (In_region_categories r). tauto.
  - rewrite <- (List.length_map
                  (fun row => (Regional.year row, Regional.region row))), Hk.
    rewrite length_prod. cbn [region_categories List.length]. lia.
Qed.

(** ** Trend Aggregator: the baseline *)

Lemma filter_filter {A} (p q : A -> bool) (l : list A) :
  List.filter p (List.filter q l) = List.filter (fun x => q x && p x) l.
Proof.
  induction l as [|a l IH]; cbn; [reflexivity|].
  destruct (q a); cbn; [destruct (p a)|]; rewrite IH; reflexivity.
Qed.

Lemma dropna_fsub (b : Q) (fs : list float) :
  dropna (map (fun t => fsub t (Some b)) fs)
  = map (fun q => q - b)%Q (dropna fs).
Proof.
  unfold dropna. induction fs as [|[q|] fs IH]; cbn; [reflexivity| |exact IH].
  f_equal. exact IH.
Qed.

(** Subtracting its mean from a column leaves a column of mean zero, the
    missing cells apart. *)
Lemma fmean_centered (fs : list float) (b : Q) :
  fmean fs = Some b ->
  feq (fmean (map (fun t => fsub t (Some b)) fs)) (Some 0%Q).
Proof.
  unfold fmean. rewrite dropna_fsub. intros H.
  assert (dropna fs <> []) as Hne by (intros E; rewrite E in H; discriminate).
  rewrite (mean_nonempty _ Hne) in H. injection H as <-.
  apply mean_centered. exact Hne.
Qed.

(** X8: when the baseline of a region is defined (some row of the region
    carries it), every row of the region carries the same baseline, which
    is the mean of the non-missing yearly means of the region over 1961 to
    1990; the anomaly of a row is its mean minus that baseline; and over
    the rows of 1961 to 1990 the non-missing anomalies of the region
    average to zero. *)
Theorem baseline_anomalies_average_to_zero
    (data : list Rec.t) (row0 : Regional.t) (b : Q) :
  In row0 (annual_regional_avg data) ->
  Regional.baseline_temp row0 = Some b ->
  (forall row, In row (annual_regional_avg data) ->
     Regional.region row = Regional.region row0 ->
     Regional.baseline_temp row = Some b /\
     Regional.temp_anomaly row = fsub (Regional.temperature_c row) (Some b)) /\
  fmean (map Regional.temperature_c
           (baseline_rows (Regional.region row0) (annual_regional_avg data)))
  = Some b /\
  feq (fmean (map Regional.temp_anomaly
                (baseline_rows (Regional.region row0) (annual_regional_avg data))))
      (Some 0%Q).
Proof.
  rewrite annual_regional_avg_rows. generalize (regional_means false data).
  intros avg Hin Hb.
  apply in_map_iff in Hin as (m0 & <- & Hm0). cbn in Hb |- *.
  set (r := RegionalMean.region m0) in *.
  assert (forall row,
            In row
              (map (fun m =>
                      let b0 := baseline_of avg (RegionalMean.region m) in
                      Regional.mk (RegionalMean.year m) (RegionalMean.region m)
                        (RegionalMean.temperature_c m) b0
                        (fsub (RegionalMean.temperature_c m) b0)) avg) ->
            Regional.region row = r ->
            Regional.baseline_temp row = Some b /\
            Regional.temp_anomaly row = fsub (Regional.temperature_c row) (Some b))
    as Hrows.
  { intros row Hrow Hr. apply in_map_iff in Hrow as (m & <- & Hm).
    cbn in Hr |- *. rewrite Hr, Hb. auto. }
  split; [exact Hrows|].
  unfold baseline_rows. rewrite filter_map_comm, !map_map. cbn.
  set (l := List.filter
              (fun m => region_eqb (RegionalMean.region m) r
                        && baseline_period (RegionalMean.year m)) avg).
  assert (fmean (map RegionalMean.temperature_c l) = Some b) as Hmean.
  { rewrite <- Hb. unfold baseline_of. rewrite filter_filter.
    f_equal. f_equal. unfold l. apply filter_ext. intros m.
    unfold has_cat. apply andb_comm. }
  split; [exact Hmean|].
  rewrite (map_ext_in _ (fun m => fsub (RegionalMean.temperature_c m) (Some b))).
  - rewrite <- (map_map RegionalMean.temperature_c (fun t => fsub t (Some b))).
    apply fmean_centered. exact Hmean.
  - intros m Hm. unfold l in Hm. apply filter_In in Hm as [_ Hm].
    apply andb_true_iff in Hm as [Hm _]. apply region_eqb_eq in Hm.
    rewrite Hm, Hb. reflexivity.
Qed.

(** ** Trend Aggregator: the seasonal and the decadal table *)

Lemma In_groupby_key_cat {A C} (ceqb : C -> C -> bool) (cats : list C)
    (key : A -> Z) (cat : A -> option C) (rs : list A)
    (k : Z) (c : C) (g : list A) :
  In (k, c, g) (groupby_key_cat ceqb cats key cat false rs) <->
  In k (map key rs) /\ In c cats /\
  g = List.filter (in_cell ceqb key cat k c) rs.
Proof.
  unfold groupby_key_cat. rewrite in_map_iff. split.
  - intros ([k' c'] & [= <- <- <-] & Hin). apply in_prod_iff in Hin as [Hk Hc].
    rewrite In_year_levels in Hk. auto.
  - intros (Hk & Hc & ->). exists (k, c). split; [reflexivity|].
    apply in_prod_iff. rewrite In_year_levels. auto.
Qed.

Lemma season_eqb_eq (a b : season_label) : season_eqb a b = true <-> a = b.
Proof. destruct a, b; simpl; split; congruence. Qed.

Lemma In_season_categories (s : season_label) : In s season_categories.
Proof. destruct s; simpl; tauto. Qed.

(** X9: the seasonal table has a row for every year of the data and every
    one of the four seasons; the row holds the mean [temperature_c] of the
    records of that year and season, and the mean is missing exactly when
    no record of the year has that season. *)
Theorem seasonal_table_has_a_row_per_year_and_season (data : list Rec.t) :
  (forall row, In row (seasonal_avg data) <->
     In (Seasonal.year row) (map Rec.year data) /\
     Seasonal.temperature_c row
     = mean (temps (season_cell (Seasonal.year row) (Seasonal.season row) data))) /\
  (forall row, In row (seasonal_avg data) ->
     Seasonal.temperature_c row = None <->
     forall x, In x data -> Rec.year x = Seasonal.year row ->
               Rec.season x <> Some (Seasonal.season row)).
Proof.
  assert (forall row, In row (seasonal_avg data) <->
            In (Seasonal.year row) (map Rec.year data) /\
            Seasonal.temperature_c row
            = mean (temps (season_cell (Seasonal.year row) (Seasonal.season row)
                             data))) as Hrows.
  { intros [y s t]. unfold seasonal_avg, observed_default. rewrite in_map_iff.
    cbn. split.
    - intros ([[y' s'] g] & [= <- <- <-] & Hg).
      apply In_groupby_key_cat in Hg as (Hy & _ & ->). auto.
    - intros [Hy ->]. exists (y, s, season_cell y s data). split; [reflexivity|].
      apply In_groupby_key_cat. split; [exact Hy|].
      split; [apply In_season_categories|reflexivity]. }
  split; [exact Hrows|].
  intros row Hrow. apply Hrows in Hrow as [_ ->].
  rewrite mean_None. unfold temps, season_cell. split.
  - intros E x Hx Hy Hs. apply map_eq_nil in E.
    assert (In x (List.filter
                    (in_cell season_eqb Rec.year Rec.season (Seasonal.year row)
                       (Seasonal.season row)) data)) as Hin.
    { apply filter_In. split; [exact Hx|]. unfold in_cell, has_cat.
      rewrite Hy, Z.eqb_refl, Hs. cbn. apply season_eqb_eq. reflexivity. }
    rewrite E in Hin. contradiction.
  - intros H.
    replace (List.filter _ data) with (@nil Rec.t); [reflexivity|].
    symmetry. apply filter_nil_iff. intros x Hx. unfold in_cell, has_cat.
    destruct (Rec.year x =? Seasonal.year row) eqn:Ey; [|reflexivity].
    apply Z.eqb_eq in Ey. cbn.
    destruct (Rec.season x) as [s|] eqn:Es; [|reflexivity].
    destruct (season_eqb s (Seasonal.season row)) eqn:E; [|reflexivity].
    apply season_eqb_eq in E. subst s. exfalso. apply (H x Hx Ey Es).
Qed.

(** What [analyze_temperature_trends] returns and leaves behind. *)
Lemma trends_returns (w : world) (data : nat) (f : frame) :
  heap w !! data = Some f ->
  analyze_temperature_trends data w
  = (World (<[data := assign "decade" set_decade f]> (heap w)) (data_dir w)
       (<["decadal_avg.csv"%string :=
            DecadalAvg (decadal_avg (map set_decade (rows f)))]>
          (<["seasonal_avg.csv"%string := SeasonalAvg (seasonal_avg (rows f))]>
             (<["annual_regional_avg.csv"%string :=
                  AnnualRegional (annual_regional_avg (rows f))]>
                (<["annual_global_avg.csv"%string :=
                     AnnualGlobal (annual_global_avg (rows f))]>
                   (results_dir w)))))
       (remote w),
     inr (TrendResults (annual_global_avg (rows f))
            (annual_regional_avg (rows f)) (seasonal_avg (rows f))
            (decadal_avg (map set_decade (rows f))))).
Proof.
  intros H. pose proof (lookup_lt_Some _ _ _ H) as Hlt.
  unfold analyze_temperature_trends, mbind, M_bind, deref, update.
  rewrite H. step. rewrite H. step.
  rewrite list_lookup_insert_eq by exact Hlt. step. reflexivity.
Qed.

Lemma temps_set_decade (l : list Rec.t) : temps (map set_decade l) = temps l.
Proof. unfold temps. rewrite map_map. reflexivity. Qed.

(** X10: the decadal table the Trend Aggregator returns is computed from
    the decade it has just assigned, [(year // 10) * 10], whatever [decade]
    column the table had on entry: it has a row for a (decade, region)
    exactly when some record's year lies in the decade, and the row holds
    the mean [temperature_c] of the records of that decade and region. *)
Theorem decadal_table_uses_the_assigned_decade
    (w : world) (data : nat) (f : frame) :
  heap w !! data = Some f ->
  exists w' res,
    analyze_temperature_trends data w = (w', inr res) /\
    forall row, In row (tr_decadal_avg res) <->
      (exists x, In x (rows f) /\
                 decade_of_year (Rec.year x) = Decadal.decade row) /\
      Decadal.temperature_c row
      = mean (temps (decade_cell (Decadal.decade row) (Decadal.region row)
                       (rows f))).
Proof.
  intros H. rewrite (trends_returns w data f H). do 2 eexists.
  split; [reflexivity|]. cbn [tr_decadal_avg].
  assert (forall d r,
            List.filter (in_cell region_eqb Rec.decade Rec.region d r)
              (map set_decade (rows f))
            = map set_decade (decade_cell d r (rows f))) as Hcell.
  { intros d r. unfold decade_cell. rewrite filter_map_comm. reflexivity. }
  intros [d r t]. unfold decadal_avg, observed_default. rewrite in_map_iff.
  cbn. split.
  - intros ([[d' r'] g] & [= <- <- <-] & Hg).
    apply In_groupby_key_cat in Hg as (Hd & _ & ->).
    rewrite map_map, in_map_iff in Hd. destruct Hd as (x & Hx & Hin).
    rewrite Hcell, temps_set_decade. split; [|reflexivity]. eauto.
  - intros [(x & Hx & Hd) ->].
    exists (d, r, map set_decade (decade_cell d r (rows f))).
    cbn [fst snd]. rewrite temps_set_decade. split; [reflexivity|].
    apply In_groupby_key_cat. rewrite Hcell.
    split; [|split; [apply In_region_categories|reflexivity]].
    rewrite map_map, in_map_iff. exists x. auto.
Qed.

(** ** Extreme Event Detector: the whole stage *)

(** What [analyze_extreme_temperatures] returns and leaves behind. *)
Lemma detector_returns (w : world) (data : nat) (f : frame) :
  heap w !! data = Some f ->
  analyze_extreme_temperatures data w
  = (World (heap w) (data_dir w)
       (<["extreme_counts.csv"%string := ExtremeCounts (extreme_counts (rows f))]>
          (results_dir w))
       (remote w),
     inr (extreme_counts (rows f))).
Proof.
  intros H. unfold analyze_extreme_temperatures, mbind, M_bind, deref.
  rewrite H. step. reflexivity.
Qed.

Lemma station_stat_ignores_decade (d : Rec.t -> Z) (data : list Rec.t)
    (s : string) :
  station_stat (map (fun r => Rec.with_decade r (d r)) data) s
  = station_stat data s.
Proof.
  unfold station_stat, station_rows, temps.
  rewrite filter_map_comm, map_map. reflexivity.
Qed.

Lemma flagged_ignores_decade (d : Rec.t -> Z) (data : list Rec.t) :
  flagged (map (fun r => Rec.with_decade r (d r)) data) = flagged data.
Proof.
  rewrite !flagged_rows, map_map. apply map_ext. intros r.
  rewrite station_stat_ignores_decade. reflexivity.
Qed.

Lemma extreme_counts_ignore_decade (d : Rec.t -> Z) (data : list Rec.t) :
  extreme_counts (map (fun r => Rec.with_decade r (d r)) data)
  = extreme_counts data.
Proof.
  unfold extreme_counts, extreme_counts_with.
  rewrite flagged_ignores_decade. reflexivity.
Qed.

(** X11: the counts of the Extreme Event Detector do not depend on the
    [decade] column of its input, which it assigns anew in its own frame:
    run after the Trend Aggregator, which has assigned that column into the
    shared table, it returns the counts it returns when run on the table as
    the Enricher left it. *)
Theorem detector_counts_do_not_depend_on_the_trend_stage
    (w : world) (data : nat) (f : frame) :
  heap w !! data = Some f ->
  snd (analyze_extreme_temperatures data
         (fst (analyze_temperature_trends data w)))
  = snd (analyze_extreme_temperatures data w) /\
  snd (analyze_extreme_temperatures data w) = inr (extreme_counts (rows f)).
Proof.
  intros H. pose proof (lookup_lt_Some _ _ _ H) as Hlt.
  rewrite (detector_returns w data f H), (trends_returns w data f H).
  cbn [fst snd].
  rewrite (detector_returns _ data (assign "decade" set_decade f)).
  - cbn [snd]. split; [|reflexivity]. f_equal. unfold assign. cbn [rows].
    apply (extreme_counts_ignore_decade (fun r => decade_of_year (Rec.year r))).
  - cbn [heap]. apply list_lookup_insert_eq. exact Hlt.
Qed.

(** X12: the station statistics have one row per station of the data, and
    the join with them neither drops nor repeats a record: the detector's
    frame has exactly as many rows as the data, one for each record, with
    the statistics of the record's own station. *)
Theorem detector_joins_every_record_once (data : list Rec.t) :
  List.NoDup (map Stats.station_id (station_stats data)) /\
  (forall s, In s (map Stats.station_id (station_stats data)) <->
             In s (map Rec.station_id data)) /\
  List.length (flagged data) = List.length data /\
  (forall r, In r data ->
     In (flag (r, station_stat data (Rec.station_id r))) (flagged data)) /\
  (forall x, In x (flagged data) ->
     exists r, In r data /\ x = flag (r, station_stat data (Rec.station_id r))).
Proof.
  assert (map Stats.station_id (station_stats data)
          = station_levels (map Rec.station_id data)) as Hids.
  { unfold station_stats. rewrite map_map. cbn. apply map_id. }
  split; [|split; [|split; [|split]]].
  - rewrite Hids. apply (sorted_is_NoDup String_as_OT.lt).
    + intros a Ha. apply (String_as_OT.lt_not_eq _ _ Ha). reflexivity.
    + apply (levels_sorted String_as_OT.lt String.ltb String.eqb String.eqb_eq
               string_ltb_lt String_as_OT.lt_trans string_lt_total).
  - intros s. rewrite Hids. apply In_station_levels.
  - rewrite flagged_rows. apply List.length_map.
  - intros r Hr. rewrite flagged_rows.
    apply (in_map (fun r => flag (r, station_stat data (Rec.station_id r)))).
    exact Hr.
  - intros x Hx. rewrite flagged_rows in Hx.
    apply in_map_iff in Hx as (r & <- & Hr). eauto.
Qed.

(** ** Extreme Event Detector: every record is counted in one cell *)

Lemma zsum_map_add {T} (a b : T -> Z) (l : list T) :
  zsum (map (fun t => a t + b t) l) = zsum (map a l) + zsum (map b l).
Proof.
  unfold zsum. induction l as [|t l IH]; cbn; [reflexivity|]. rewrite IH. lia.
Qed.

Lemma zsum_map_zero {T} (a : T -> Z) (l : list T) :
  (forall t, In t l -> a t = 0) -> zsum (map a l) = 0.
Proof.
  unfold zsum. induction l as [|t l IH]; cbn; intros H; [reflexivity|].
  rewrite (H t) by auto. rewrite IH; [reflexivity|]. intros u Hu. apply H. auto.
Qed.

(** A sum over a duplicate-free list in which one element alone counts. *)
Lemma zsum_indicator {T} (p : T -> bool) (v : Z) (l : list T) (t0 : T) :
  List.NoDup l -> In t0 l ->
  (forall t, In t l -> p t = true <-> t = t0) ->
  zsum (map (fun t => if p t then v else 0) l) = v.
Proof.
  intros Hnd. induction Hnd as [|a l Ha Hnd IH]; intros Hin Hp; [contradiction|].
  change (zsum (map (fun t => if p t then v else 0) (a :: l)))
    with ((if p a then v else 0) + zsum (map (fun t => if p t then v else 0) l)).
  destruct Hin as [-> | Hin].
  - replace (p t0) with true
      by (symmetry; apply Hp; [left; reflexivity|reflexivity]).
    rewrite zsum_map_zero; [lia|].
    intros t Ht. destruct (p t) eqn:E; [|reflexivity].
    apply Hp in E; [|right; exact Ht]. subst t. contradiction.
  - destruct (p a) eqn:E.
    + apply Hp in E; [|left; reflexivity]. subst a. contradiction.
    + rewrite IH; [lia|exact Hin|].
      intros t Ht. apply Hp. right. exact Ht.
Qed.

Lemma count_true_cons (b : bool) (bs : list bool) :
  count_true (b :: bs) = (if b then 1 else 0) + count_true bs.
Proof. reflexivity. Qed.

Section CellsPartition.
Context {A : Type} (key : A -> Z) (cat : A -> option region_label).
Context (h : A -> bool).

Lemma cells_partition (D : list Z) (l : list A) :
  List.NoDup D -> (forall x, In x l -> In (key x) D) ->
  zsum (map (fun kc =>
               count_true
                 (map h (List.filter (in_cell region_eqb key cat (fst kc) (snd kc)) l)))
            (list_prod D region_categories))
  = count_true
      (map h (List.filter
                (fun x => match cat x with Some _ => true | None => false end) l)).
Proof.
  intros HD. induction l as [|x l IH]; intros Hkeys.
  - cbn [List.filter map count_true fold_right].
    apply zsum_map_zero. reflexivity.
  - assert (forall y, In y l -> In (key y) D) as Hkeys'
      by (intros y Hy; apply Hkeys; right; exact Hy).
    specialize (IH Hkeys'). cbn [List.filter].
    rewrite (map_ext
               (fun kc =>
                  count_true
                    (map h
                       (if in_cell region_eqb key cat (fst kc) (snd kc) x
                        then x :: List.filter
                                    (in_cell region_eqb key cat (fst kc) (snd kc)) l
                        else List.filter
                               (in_cell region_eqb key cat (fst kc) (snd kc)) l)))
               (fun kc =>
                  (if in_cell region_eqb key cat (fst kc) (snd kc) x
                   then (if h x then 1 else 0) else 0)
                  + count_true
                      (map h (List.filter
                                (in_cell region_eqb key cat (fst kc) (snd kc)) l))))
      by (intros kc; destruct (in_cell region_eqb key cat (fst kc) (snd kc) x);
          [apply count_true_cons|reflexivity]).
    rewrite zsum_map_add, IH.
    destruct (cat x) as [c0|] eqn:Ec.
    + cbn [map]. rewrite count_true_cons. f_equal.
      apply (zsum_indicator _ _ _ (key x, c0)).
      * apply NoDup_list_prod; [exact HD|apply region_categories_NoDup].
      * apply in_prod_iff. split; [|apply In_region_categories].
        apply Hkeys. left. reflexivity.
      * intros [k c] _. unfold in_cell, has_cat. cbn [fst snd]. rewrite Ec.
        rewrite andb_true_iff, Z.eqb_eq, region_eqb_eq. split.
        -- intros [-> ->]. reflexivity.
        -- intros [= -> ->]. auto.
    + rewrite zsum_map_zero; [lia|].
      intros [k c] _. unfold in_cell, has_cat. cbn [fst snd]. rewrite Ec.
      rewrite andb_false_r. reflexivity.
Qed.
End CellsPartition.

(** X14: every record whose region is not missing is counted in exactly
    one row of the extreme-counts table, and a record whose region is
    missing in none: the [extreme_hot] column sums to the number of flagged
    hot records that have a region, and likewise [extreme_cold]. *)
Theorem every_record_with_a_region_is_counted_once (data : list Rec.t) :
  zsum (map Extreme.extreme_hot (extreme_counts data))
  = count_true (map Flagged.extreme_hot (List.filter has_region (flagged data))) /\
  zsum (map Extreme.extreme_cold (extreme_counts data))
  = count_true (map Flagged.extreme_cold (List.filter has_region (flagged data))).
Proof.
  unfold extreme_counts, extreme_counts_with, observed_default, groupby_key_cat.
  rewrite !map_map. cbn [Extreme.extreme_hot Extreme.extreme_cold fst snd].
  split.
  - apply (cells_partition (fun x => Rec.decade (Flagged.base x))
             (fun x => Rec.region (Flagged.base x)) Flagged.extreme_hot).
    + apply year_levels_NoDup.
    + intros x Hx. apply In_year_levels.
      apply (in_map (fun x => Rec.decade (Flagged.base x))). exact Hx.
  - apply (cells_partition (fun x => Rec.decade (Flagged.base x))
             (fun x => Rec.region (Flagged.base x)) Flagged.extreme_cold).
    + apply year_levels_NoDup.
    + intros x Hx. apply In_year_levels.
      apply (in_map (fun x => Rec.decade (Flagged.base x))). exact Hx.
Qed.

(** ** Result Store: what a request returns *)

Lemma string_length_append (a b : string) :
  String.length (a ++ b) = (String.length a + String.length b)%nat.
Proof.
  induction a as [|c a IH]; [reflexivity|].
  change (S (String.length (a ++ b)) = S (String.length a + String.length b)).
  f_equal. exact IH.
Qed.

Lemma string_append_inv_tail (a b s : string) :
  (a ++ s)%string = (b ++ s)%string -> a = b.
Proof.
  revert b. induction a as [|c a IH]; intros [|c' b] H.
  - reflexivity.
  - apply (f_equal String.length) in H.
    rewrite !string_length_append in H. cbn in H. lia.
  - apply (f_equal String.length) in H.
    rewrite !string_length_append in H. cbn in H. lia.
  - cbn in H. injection H as -> H. f_equal. apply IH. exact H.
Qed.

Lemma required_stems_NoDup : List.NoDup (map stem required_files).
Proof.
  cbn. repeat (constructor; [cbn; intuition discriminate|]). constructor.
Qed.

Lemma stem_of_required_file (name : string) :
  In (name ++ ".csv")%string required_files -> stem (name ++ ".csv") = name.
Proof.
  unfold required_files. intros H. cbn [In] in H.
  repeat (destruct H as [H | H];
          [rewrite <- H; apply (string_append_inv_tail _ _ ".csv");
           rewrite <- H; reflexivity|]).
  contradiction.
Qed.

Section CollectResults.
Context (w : world).

Let add_file (results : gmap string table) (file : string) : gmap string table :=
  match results_dir w !! file with
  | Some t => <[stem file := t]> results
  | None => results
  end.

Lemma collect_other (name : string) (files : list string)
    (acc : gmap string table) :
  (forall file, In file files -> stem file <> name) ->
  fold_left add_file files acc !! name = acc !! name.
Proof.
  revert acc. induction files as [|file files IH]; intros acc H; [reflexivity|].
  cbn. rewrite IH by (intros x Hx; apply H; right; exact Hx).
  unfold add_file. destruct (results_dir w !! file); [|reflexivity].
  apply lookup_insert_ne. apply H. left. reflexivity.
Qed.

Lemma collect_present (file : string) (t : table) (files : list string)
    (acc : gmap string table) :
  List.NoDup (map stem files) -> In file files ->
  results_dir w !! file = Some t ->
  fold_left add_file files acc !! stem file = Some t.
Proof.
  revert acc. induction files as [|a files IH]; intros acc Hnd Hin Ht;
    [contradiction|].
  cbn in Hnd. inversion Hnd as [|? ? Hnotin Hnd']; subst. cbn.
  destruct Hin as [-> | Hin].
  - rewrite collect_other.
    + unfold add_file. rewrite Ht. apply lookup_insert_eq.
    + intros x Hx E. apply Hnotin. rewrite <- E. apply in_map. exact Hx.
  - apply IH; assumption.
Qed.
End CollectResults.

(** A table whose file is among the six and is there is returned as it is. *)
Lemma get_table_present (w : world) (name : string) (t : table) :
  In (name ++ ".csv")%string required_files ->
  results_dir w !! (name ++ ".csv")%string = Some t ->
  get_table name w = inr t.
Proof.
  intros Hin Ht.
  assert (collect_results w !! name = Some t) as Hl.
  { rewrite <- (stem_of_required_file name Hin) at 1.
    apply collect_present; [apply required_stems_NoDup|exact Hin|exact Ht]. }
  unfold get_table, load_results.
  destruct (size (collect_results w) =? 0)%nat eqn:E.
  - apply Nat.eqb_eq in E. apply map_size_empty_iff in E.
    rewrite E, lookup_empty in Hl. discriminate.
  - rewrite Hl. reflexivity.
Qed.

(** X15: a request returns a table exactly when its file is one of the six
    result files and is in the results directory, and then it returns the
    table of that file; a file of any other name in the directory is never
    served. *)
Theorem get_table_serves_exactly_the_six_files
    (w : world) (name : string) (t : table) :
  get_table name w = inr t <->
  In (name ++ ".csv")%string required_files /\
  results_dir w !! (name ++ ".csv")%string = Some t.
Proof.
  split.
  - intros H.
    assert (collect_results w !! name = Some t) as Hl.
    { unfold get_table, load_results in H.
      destruct (size (collect_results w) =? 0)%nat; [discriminate|].
      destruct (collect_results w !! name); [congruence|discriminate]. }
    destruct (in_dec string_dec (name ++ ".csv")%string required_files)
      as [Hin|Hnot].
    + split; [exact Hin|].
      destruct (results_dir w !! (name ++ ".csv")%string) as [t'|] eqn:Ht.
      * pose proof (get_table_present w name t' Hin Ht) as H'. congruence.
      * rewrite (collect_results_absent w name Ht) in Hl. discriminate.
    + exfalso. unfold collect_results in Hl.
      rewrite (collect_other w name) in Hl; [rewrite lookup_empty in Hl; discriminate|].
      intros file Hfile E. apply Hnot.
      rewrite <- (required_file_of_stem file name Hfile E). exact Hfile.
  - intros [Hin Ht]. apply get_table_present; assumption.
Qed.

(** ** The whole run *)

Lemma run_analysis_steps
    (to_datetime : Z -> Z -> option timestamp)
    (st : frame) (sm : list Station.t) (w : world) :
  run_analysis to_datetime st sm w
  = match catch (download_data st sm) (fun _ => mret tt) w with
    | (w1, inr _) =>
        match load_data st sm w1 with
        | (w2, inr loaded) => analyse to_datetime loaded w2
        | (w2, inl e) => (w2, inl e)
        end
    | (w1, inl e) => (w1, inl e)
    end.
Proof. reflexivity. Qed.

(** The data is always acquired: the table to analyse is a new object, the
    last of the heap, and nothing else of the world changes but the data
    files. *)
Lemma run_analysis_acquires (st : frame) (sm : list Station.t) (w : world) :
  exists pre d,
    match catch (download_data st sm) (fun _ => mret tt) w with
    | (w1, inr _) => load_data st sm w1
    | (w1, inl e) => (w1, inl e)
    end
    = (World (heap w ++ pre ++ [analysed_table st w]) d (results_dir w)
         (remote w),
       inr (List.length (heap w ++ pre), analysed_stations sm w)).
Proof.
  unfold download_data, requests_get, create_sample_data, save_archive,
    save_station_metadata, save_temperature_data, load_data, analysed_table,
    analysed_stations, downloaded. run.
  destruct (remote w) as [[status body]|] eqn:E; cbn.
  - destruct (status =? 200) eqn:Es; cbn.
    + destruct (temperature_data (data_dir w)) as [t|],
        (station_metadata (data_dir w)) as [s|]; cbn;
        exists []; eexists; rewrite ?E, ?app_nil_r; reflexivity.
    + destruct (temperature_data (data_dir w)) as [t|],
        (station_metadata (data_dir w)) as [s|]; cbn;
        exists [st]; eexists; rewrite ?E, <- ?app_assoc; reflexivity.
  - destruct (temperature_data (data_dir w)) as [t|],
      (station_metadata (data_dir w)) as [s|]; cbn;
      exists [st]; eexists; rewrite ?E, <- ?app_assoc; reflexivity.
Qed.

Lemma analyse_returns
    (to_datetime : Z -> Z -> option timestamp)
    (w : world) (l : nat) (f : frame) (stations : list Station.t)
    (dates : list timestamp) :
  heap w !! l = Some f ->
  mapM (fun r => to_datetime (Rec.year r) (Rec.month r)) (rows f) = Some dates ->
  analyse to_datetime (l, stations) w
  = (World
       (<[l := enriched_temp_df dates f]> (heap w)
        ++ [assign "decade" set_decade (enriched_data dates f stations)])
       (data_dir w)
       (<["processed_data.csv"%string :=
            Readings (assign "decade" set_decade (enriched_data dates f stations))]>
          (<["extreme_counts.csv"%string :=
               ExtremeCounts
                 (extreme_counts
                    (map set_decade (rows (enriched_data dates f stations))))]>
             (<["decadal_avg.csv"%string :=
                  DecadalAvg
                    (decadal_avg
                       (map set_decade (rows (enriched_data dates f stations))))]>
                (<["seasonal_avg.csv"%string :=
                     SeasonalAvg (seasonal_avg (rows (enriched_data dates f stations)))]>
                   (<["annual_regional_avg.csv"%string :=
                        AnnualRegional
                          (annual_regional_avg (rows (enriched_data dates f stations)))]>
                      (<["annual_global_avg.csv"%string :=
                           AnnualGlobal
                             (annual_global_avg
                                (rows (enriched_data dates f stations)))]>
                         (results_dir w)))))))
       (remote w),
     inr (Analysis (List.length (heap w))
            (TrendResults
               (annual_global_avg (rows (enriched_data dates f stations)))
               (annual_regional_avg (rows (enriched_data dates f stations)))
               (seasonal_avg (rows (enriched_data dates f stations)))
               (decadal_avg (map set_decade (rows (enriched_data dates f stations)))))
            (extreme_counts
               (map set_decade (rows (enriched_data dates f stations)))))).
Proof.
  intros H Hd. pose proof (lookup_lt_Some _ _ _ H) as Hlt.
  unfold analyse. unfold mbind at 1, M_bind at 1. cbn [fst snd].
  rewrite (enricher_assigns_in_place to_datetime w l f stations dates H Hd).
  fold (enriched_data dates f stations).
  set (d := enriched_data dates f stations).
  set (h1 := <[l := enriched_temp_df dates f]> (heap w)).
  assert (List.length h1 = List.length (heap w)) as Hlen
    by (unfold h1; apply length_insert).
  assert ((h1 ++ [d]) !! List.length (heap w) = Some d) as Hd1
    by (apply list_lookup_middle; symmetry; exact Hlen).
  unfold mbind at 1, M_bind at 1.
  rewrite (trends_returns _ (List.length (heap w)) d) by exact Hd1.
  cbn [heap data_dir results_dir remote].
  assert (<[List.length (heap w) := assign "decade" set_decade d]> (h1 ++ [d])
          = h1 ++ [assign "decade" set_decade d]) as Hins.
  { rewrite <- Hlen. rewrite <- (Nat.add_0_r (List.length h1)).
    rewrite insert_app_r. reflexivity. }
  rewrite Hins.
  assert ((h1 ++ [assign "decade" set_decade d]) !! List.length (heap w)
          = Some (assign "decade" set_decade d)) as Hd2
    by (apply list_lookup_middle; symmetry; exact Hlen).
  unfold mbind at 1, M_bind at 1.
  rewrite (detector_returns _ (List.length (heap w)) (assign "decade" set_decade d))
    by exact Hd2.
  cbn [heap data_dir results_dir remote].
  unfold mbind, M_bind, deref. cbn [heap]. rewrite Hd2. step.
  reflexivity.
Qed.

Lemma analyse_raises
    (to_datetime : Z -> Z -> option timestamp)
    (w : world) (l : nat) (f : frame) (stations : list Station.t) :
  heap w !! l = Some f ->
  mapM (fun r => to_datetime (Rec.year r) (Rec.month r)) (rows f) = None ->
  exists h, analyse to_datetime (l, stations) w
            = (World h (data_dir w) (results_dir w) (remote w), inl ValueError).
Proof.
  intros H Hd. unfold analyse. unfold mbind at 1, M_bind at 1. cbn [fst snd].
  rewrite (enricher_raises_after_first_assignment to_datetime w l f stations H Hd).
  eexists. reflexivity.
Qed.

Lemma get_table_of_results_dir (name : string) (w w' : world) :
  results_dir w' = results_dir w -> get_table name w' = get_table name w.
Proof.
  intros H. unfold get_table, load_results, collect_results. rewrite H.
  reflexivity.
Qed.

Ltac served :=
  apply get_table_present;
  [cbn; tauto
  |cbn [results_dir];
   repeat (rewrite lookup_insert_ne by discriminate); apply lookup_insert_eq].

(** What a run returns and leaves in the results directory. *)
Lemma run_analysis_returns
    (to_datetime : Z -> Z -> option timestamp)
    (st : frame) (sm : list Station.t) (w : world) (dates : list timestamp) :
  mapM (fun r => to_datetime (Rec.year r) (Rec.month r))
       (rows (analysed_table st w)) = Some dates ->
  exists h dd n,
    h !! n = Some (assign "decade" set_decade (run_data dates st sm w)) /\
    run_analysis to_datetime st sm w
    = (World h dd
         (<["processed_data.csv"%string :=
              Readings (assign "decade" set_decade (run_data dates st sm w))]>
            (<["extreme_counts.csv"%string :=
                 ExtremeCounts (extreme_counts (rows (run_data dates st sm w)))]>
               (<["decadal_avg.csv"%string :=
                    DecadalAvg
                      (decadal_avg (map set_decade (rows (run_data dates st sm w))))]>
                  (<["seasonal_avg.csv"%string :=
                       SeasonalAvg (seasonal_avg (rows (run_data dates st sm w)))]>
                     (<["annual_regional_avg.csv"%string :=
                          AnnualRegional
                            (annual_regional_avg (rows (run_data dates st sm w)))]>
                        (<["annual_global_avg.csv"%string :=
                             AnnualGlobal
                               (annual_global_avg (rows (run_data dates st sm w)))]>
                           (results_dir w)))))))
         (remote w),
       inr (Analysis n
              (TrendResults
                 (annual_global_avg (rows (run_data dates st sm w)))
                 (annual_regional_avg (rows (run_data dates st sm w)))
                 (seasonal_avg (rows (run_data dates st sm w)))
                 (decadal_avg (map set_decade (rows (run_data dates st sm w)))))
              (extreme_counts (rows (run_data dates st sm w))))).
Proof.
  intros Hd. rewrite run_analysis_steps.
  destruct (run_analysis_acquires st sm w) as (pre & dd & Hacq).
  destruct (catch (download_data st sm) (fun _ => mret tt) w) as [w1 [e|u]];
    [discriminate Hacq|].
  rewrite Hacq.
  assert ((heap w ++ pre ++ [analysed_table st w]) !! List.length (heap w ++ pre)
          = Some (analysed_table st w)) as Hl.
  { rewrite app_assoc. apply list_lookup_middle. reflexivity. }
  rewrite (analyse_returns to_datetime
             (World (heap w ++ pre ++ [analysed_table st w]) dd (results_dir w)
                (remote w))
             _ (analysed_table st w) (analysed_stations sm w) dates Hl Hd).
  fold (run_data dates st sm w).
  assert (extreme_counts (map set_decade (rows (run_data dates st sm w)))
          = extreme_counts (rows (run_data dates st sm w))) as Hx
    by apply (extreme_counts_ignore_decade (fun r => decade_of_year (Rec.year r))).
  rewrite Hx. cbn [heap data_dir results_dir remote].
  do 3 eexists. split; [|reflexivity].
  apply list_lookup_middle. rewrite length_insert. reflexivity.
Qed.

(** X16: when the dates of the table it works on assemble, [run_analysis]
    returns, and the Result Store then serves, under their six names, the
    very tables the stages computed from the enriched table of the run: the
    four trend tables, the extreme counts, and the enriched table itself,
    saved with the [decade] column the Trend Aggregator assigned. *)
Theorem run_analysis_fills_the_store
    (to_datetime : Z -> Z -> option timestamp)
    (st : frame) (sm : list Station.t) (w : world) (dates : list timestamp) :
  mapM (fun r => to_datetime (Rec.year r) (Rec.month r))
       (rows (analysed_table st w)) = Some dates ->
  exists w' res,
    run_analysis to_datetime st sm w = (w', inr res) /\
    heap w' !! an_data res
    = Some (assign "decade" set_decade (run_data dates st sm w)) /\
    an_extreme_results res = extreme_counts (rows (run_data dates st sm w)) /\
    get_table "annual_global_avg" w'
    = inr (AnnualGlobal (annual_global_avg (rows (run_data dates st sm w)))) /\
    get_table "annual_regional_avg" w'
    = inr (AnnualRegional (annual_regional_avg (rows (run_data dates st sm w)))) /\
    get_table "seasonal_avg" w'
    = inr (SeasonalAvg (seasonal_avg (rows (run_data dates st sm w)))) /\
    get_table "decadal_avg" w'
    = inr (DecadalAvg (tr_decadal_avg (an_trend_results res))) /\
    get_table "extreme_counts" w'
    = inr (ExtremeCounts (extreme_counts (rows (run_data dates st sm w)))) /\
    get_table "processed_data" w'
    = inr (Readings (assign "decade" set_decade (run_data dates st sm w))).
Proof.
  intros Hd.
  destruct (run_analysis_returns to_datetime st sm w dates Hd)
    as (h & dd & n & Hn & ->).
  do 2 eexists. split; [reflexivity|].
  cbn [an_data an_extreme_results an_trend_results tr_decadal_avg heap].
  split; [exact Hn|]. split; [reflexivity|].
  repeat split; served.
Qed.

(** X17: when a date of the table it works on does not assemble,
    [run_analysis] fails with [ValueError] and writes no result: the Result
    Store answers every request as it did before the run, with the tables
    of an earlier run if there are any. *)
Theorem failed_run_leaves_the_store_as_it_was
    (to_datetime : Z -> Z -> option timestamp)
    (st : frame) (sm : list Station.t) (w : world) :
  mapM (fun r => to_datetime (Rec.year r) (Rec.month r))
       (rows (analysed_table st w)) = None ->
  exists w',
    run_analysis to_datetime st sm w = (w', inl ValueError) /\
    results_dir w' = results_dir w /\
    forall name, get_table name w' = get_table name w.
Proof.
  intros Hd. rewrite run_analysis_steps.
  destruct (run_analysis_acquires st sm w) as (pre & dd & Hacq).
  destruct (catch (download_data st sm) (fun _ => mret tt) w) as [w1 [e|u]];
    [discriminate Hacq|].
  rewrite Hacq.
  assert ((heap w ++ pre ++ [analysed_table st w]) !! List.length (heap w ++ pre)
          = Some (analysed_table st w)) as Hl.
  { rewrite app_assoc. apply list_lookup_middle. reflexivity. }
  destruct (analyse_raises to_datetime
              (World (heap w ++ pre ++ [analysed_table st w]) dd (results_dir w)
                 (remote w))
              _ (analysed_table st w) (analysed_stations sm w) Hl Hd)
    as (h & ->).
  eexists. split; [reflexivity|]. cbn [results_dir]. split; [reflexivity|].
  intros name. apply get_table_of_results_dir. reflexivity.
Qed.

(** X18: when the remote source does not answer with a 200, the data files
    on disk, if any, are replaced by the generated sample before they are
    read, so that [run_analysis] works on the sample; the persisted tables
    are analysed only when the download succeeded and both files exist. *)
Theorem failed_download_replaces_the_persisted_data
    (st : frame) (sm : list Station.t) (w : world) :
  downloaded w = false ->
  analysed_table st w = st /\ analysed_stations sm w = sm /\
  exists w1,
    download_data st sm w = (w1, inr tt) /\
    temperature_data (data_dir w1) = Some st /\
    station_metadata (data_dir w1) = Some sm /\
    exists w2 l,
      load_data st sm w1 = (w2, inr (l, sm)) /\ heap w2 !! l = Some st.
Proof.
  intros H.
  split; [|split].
  - unfold analysed_table. rewrite H.
    destruct (temperature_data (data_dir w)), (station_metadata (data_dir w));
      reflexivity.
  - unfold analysed_stations. rewrite H.
    destruct (temperature_data (data_dir w)), (station_metadata (data_dir w));
      reflexivity.
  - unfold downloaded in H.
    unfold download_data, requests_get, create_sample_data, save_archive,
      save_station_metadata, save_temperature_data, load_data. run.
    destruct (remote w) as [[status body]|]; cbn.
    + rewrite H. cbn. eexists. split; [reflexivity|]. cbn.
      split; [reflexivity|]. split; [reflexivity|].
      do 2 eexists. split; [reflexivity|]. cbn.
      apply list_lookup_middle. reflexivity.
    + eexists. split; [reflexivity|]. cbn.
      split; [reflexivity|]. split; [reflexivity|].
      do 2 eexists. split; [reflexivity|]. cbn.
      apply list_lookup_middle. reflexivity.
Qed.

(** ** The sample generator *)

Lemma In_zrange (a b y : Z) : In y (zrange a b) <-> a <= y < b.
Proof.
  unfold zrange. rewrite in_map_iff. split.
  - intros (k & <- & Hk). apply in_seq in Hk. lia.
  - intros H. exists (Z.to_nat (y - a)). split; [lia|]. apply in_seq. lia.
Qed.

Lemma zrange_NoDup (a b : Z) : List.NoDup (zrange a b).
Proof.
  unfold zrange. apply NoDup_map_NoDup_ForallPairs; [|apply seq_NoDup].
  intros x y _ _ H. lia.
Qed.

Lemma sample_station_ids_NoDup :
  List.NoDup (map sample_station_id (seq 0 SAMPLE_SIZE)).
Proof. apply NoDup_ListNoDup. apply (bool_decide_unpack _). vm_compute. reflexivity. Qed.

Lemma NoDup_map_injective {A B} (f : A -> B) (l : list A) (x y : A) :
  List.NoDup (map f l) -> In x l -> In y l -> f x = f y -> x = y.
Proof.
  induction l as [|a l IH]; cbn; [contradiction|].
  intros Hnd Hx Hy E. inversion Hnd as [|? ? Hnotin Hnd']; subst.
  destruct Hx as [-> | Hx], Hy as [-> | Hy].
  - reflexivity.
  - exfalso. apply Hnotin. rewrite E. apply in_map. exact Hy.
  - exfalso. apply Hnotin. rewrite <- E. apply in_map. exact Hx.
  - apply IH; assumption.
Qed.

Lemma sample_keys_NoDup : List.NoDup sample_keys.
Proof.
  unfold sample_keys. apply NoDup_list_prod; [apply seq_NoDup|].
  apply NoDup_list_prod; apply zrange_NoDup.
Qed.

Lemma In_sample_keys (i : nat) (y m : Z) :
  In (i, (y, m)) sample_keys <->
  (i < SAMPLE_SIZE)%nat /\ 1960 <= y <= 2020 /\ 1 <= m <= 12.
Proof.
  unfold sample_keys, sample_years, sample_months, START_YEAR, END_YEAR.
  rewrite !in_prod_iff, !In_zrange, in_seq. lia.
Qed.

Lemma filter_all {A} (p : A -> bool) (l : list A) :
  (forall x, In x l -> p x = true) -> List.filter p l = l.
Proof.
  induction l as [|a l IH]; cbn; intros H; [reflexivity|].
  rewrite (H a) by auto. f_equal. apply IH. intros x Hx. apply H. auto.
Qed.

Lemma generated_record_has_metadata (dr : draws) (r : Rec.t) :
  In r (rows (generated_temperature dr)) ->
  1960 <= Rec.year r <= 2020 /\ 1 <= Rec.month r <= 12 /\
  has_metadata (generated_metadata dr) r = true.
Proof.
  unfold generated_temperature. cbn [rows]. rewrite in_map_iff.
  intros ([i [y m]] & <- & Hk). apply In_sample_keys in Hk as (Hi & Hy & Hm).
  cbn [fst snd].
  set (r := raw_record (sample_station_id i) y m (temperature_of dr i y m)).
  split; [exact Hy|]. split; [exact Hm|].
  assert (In (Station.mk (sample_station_id i) (latitude_of dr i)
                (longitude_of dr i) (elevation_of dr i)
                ("Sample Station " ++ pretty i)%string (country_of dr i))
             (metadata_of (generated_metadata dr) r)) as Hin.
  { apply filter_In. split; [|apply String.eqb_refl].
    unfold generated_metadata.
    apply (in_map (fun i => Station.mk (sample_station_id i) (latitude_of dr i)
                              (longitude_of dr i) (elevation_of dr i)
                              ("Sample Station " ++ pretty i)%string
                              (country_of dr i))).
    apply in_seq. unfold SAMPLE_SIZE in *. lia. }
  unfold has_metadata.
  destruct (metadata_of (generated_metadata dr) r); [contradiction|reflexivity].
Qed.

Lemma generated_metadata_ids (dr : draws) :
  map Station.station_id (generated_metadata dr)
  = map sample_station_id (seq 0 SAMPLE_SIZE).
Proof. unfold generated_metadata. rewrite map_map. reflexivity. Qed.

(** X19: whatever the generator draws, its temperature table has one
    record for each of the 100 stations, each year from 1960 to 2020 and
    each month from 1 to 12, 100 * 61 * 12 in all, no two with the same
    station, year and month; its station table has 100 stations with distinct
    identifiers; and every record's station is in the station table, so
    that the join of the Enricher keeps every record. *)
Theorem generated_sample_is_complete_and_uniquely_keyed (dr : draws) :
  Z.of_nat (List.length (rows (generated_temperature dr))) = 100 * 61 * 12 /\
  List.length (generated_metadata dr) = 100%nat /\
  List.NoDup (map Station.station_id (generated_metadata dr)) /\
  List.NoDup
    (map (fun r => (Rec.station_id r, Rec.year r, Rec.month r))
         (rows (generated_temperature dr))) /\
  (forall r, In r (rows (generated_temperature dr)) ->
     1960 <= Rec.year r <= 2020 /\ 1 <= Rec.month r <= 12 /\
     has_metadata (generated_metadata dr) r = true) /\
  List.length
    (rows (merge_metadata (generated_temperature dr) (generated_metadata dr)))
  = List.length (rows (generated_temperature dr)).
Proof.
  assert (List.NoDup (map Station.station_id (generated_metadata dr))) as Hids.
  { rewrite generated_metadata_ids. apply sample_station_ids_NoDup. }
  split.
  { unfold generated_temperature. cbn [rows]. rewrite List.length_map.
    unfold sample_keys, sample_years, sample_months, zrange, SAMPLE_SIZE,
      START_YEAR, END_YEAR.
    rewrite !length_prod, !List.length_map, !length_seq. lia. }
  split.
  { unfold generated_metadata. rewrite List.length_map, length_seq. reflexivity. }
  split; [exact Hids|]. split.
  { unfold generated_temperature. cbn [rows]. rewrite map_map.
    apply NoDup_map_NoDup_ForallPairs; [|apply sample_keys_NoDup].
    intros [i [y m]] [i' [y' m']] Hk Hk' E.
    cbn [fst snd raw_record Rec.station_id Rec.year Rec.month] in E.
    pose proof (f_equal (fun p => fst (fst p)) E) as E1.
    pose proof (f_equal (fun p => snd (fst p)) E) as E2.
    pose proof (f_equal snd E) as E3.
    cbn [fst snd] in E1, E2, E3. subst y' m'. clear E.
    apply In_sample_keys in Hk as (Hi & _). apply In_sample_keys in Hk' as (Hi' & _).
    f_equal.
    apply (NoDup_map_injective sample_station_id (seq 0 SAMPLE_SIZE));
      [apply sample_station_ids_NoDup|apply in_seq; lia|apply in_seq; lia|exact E1]. }
  split; [apply generated_record_has_metadata|].
  destruct (join_lengths (generated_metadata dr) (rows (generated_temperature dr))
              Hids) as [H1 _].
  rewrite rows_merge_metadata, H1, filter_all; [reflexivity|].
  intros r Hr. apply generated_record_has_metadata. exact Hr.
Qed.

(** X20: on a machine where the download does not succeed or a data file
    is missing, a run on the generated sample cannot fail, provided every
    first of a month from 1960 to 2020 is a date: [run_analysis] returns
    and the Result Store then serves each of the six tables. *)
Theorem run_on_the_generated_sample_succeeds
    (to_datetime : Z -> Z -> option timestamp) (dr : draws) (w : world) :
  (forall y m, 1960 <= y <= 2020 -> 1 <= m <= 12 -> to_datetime y m <> None) ->
  downloaded w = false \/ temperature_data (data_dir w) = None \/
  station_metadata (data_dir w) = None ->
  exists w' res,
    run_analysis to_datetime (generated_temperature dr) (generated_metadata dr) w
    = (w', inr res) /\
    forall file, In file required_files ->
      exists t, get_table (stem file) w' = inr t.
Proof.
  intros Htd Hw.
  assert (analysed_table (generated_temperature dr) w = generated_temperature dr)
    as Ht.
  { unfold analysed_table.
    destruct (temperature_data (data_dir w)) as [t|] eqn:E1; [|reflexivity].
    destruct (station_metadata (data_dir w)) as [s|] eqn:E2; [|reflexivity].
    destruct Hw as [-> | [Hw | Hw]]; [reflexivity|discriminate|discriminate]. }
  assert (is_Some (mapM (fun r => to_datetime (Rec.year r) (Rec.month r))
                     (rows (analysed_table (generated_temperature dr) w))))
    as [dates Hd].
  { apply mapM_is_Some_2. rewrite Ht. apply List.Forall_forall. intros r Hr.
    apply generated_record_has_metadata in Hr as (Hy & Hm & _). cbn.
    destruct (to_datetime (Rec.year r) (Rec.month r)) eqn:E; [eauto|].
    exfalso. apply (Htd _ _ Hy Hm E). }
  destruct (run_analysis_returns to_datetime (generated_temperature dr)
              (generated_metadata dr) w dates Hd) as (h & dd & n & _ & ->).
  do 2 eexists. split; [reflexivity|].
  intros file Hfile. unfold required_files in Hfile. cbn [In] in Hfile.
  repeat (destruct Hfile as [<- | Hfile]; [eexists; cbn [stem]; served|]).
  contradiction.
Qed.

(** ** The further properties at the small inputs *)

Lemma inner_join_drops_records_without_metadata_witness :
  List.NoDup (map Station.station_id [station_a]) /\
  List.length (rows (merge_metadata example_temperature [station_a])) = 1%nat /\
  List.length (rows example_temperature)
  = (List.length (rows (merge_metadata example_temperature [station_a])) + 3)%nat.
Proof.
  assert (List.NoDup (map Station.station_id [station_a])) as Hnd
    by (repeat constructor; cbn; tauto).
  destruct (inner_join_drops_records_without_metadata example_temperature
              [station_a] Hnd) as (_ & H1 & H2).
  split; [exact Hnd|]. split; [exact H1|exact H2].
Defined.

Lemma enricher_builds_the_enriched_table_witness :
  exists w' d,
    preprocess_data example_to_datetime 0 [station_a; station_b] raw_world
    = (w', inr 1%nat) /\
    heap w' !! 1%nat = Some d /\
    columns d = enriched_columns (columns example_temperature) /\
    In (enriched_record (raw_record "B" 1962 7 280) (1962, 7, 1) station_b)
       (rows d).
Proof.
  destruct (enricher_builds_the_enriched_table example_to_datetime raw_world
              0%nat example_temperature [station_a; station_b] example_dates
              eq_refl eq_refl) as (w' & d & Hrun & Hd & Hc & Hrows).
  exists w', d. split; [exact Hrun|]. split; [exact Hd|]. split; [exact Hc|].
  apply Hrows. exists (raw_record "B" 1962 7 280), (1962, 7, 1), station_b.
  cbn. tauto.
Defined.

Lemma enricher_fails_on_a_bad_date_after_one_assignment_witness :
  heap bad_world !! 0%nat = Some bad_temperature /\
  exists e,
    snd (preprocess_data example_to_datetime 0 [station_a] bad_world) = inl e.
Proof.
  split; [reflexivity|].
  destruct (enricher_fails_on_a_bad_date_after_one_assignment
              example_to_datetime bad_world 0%nat bad_temperature [station_a]
              eq_refl) as [[H _] _].
  apply H. exists (raw_record "A" 1995 13 220). cbn. auto.
Defined.

Lemma baseline_anomalies_average_to_zero_witness :
  feq (fmean (map Regional.temp_anomaly
                (baseline_rows TropicalS (annual_regional_avg example_rows))))
      (Some 0%Q).
Proof.
  assert (In (nth 8 (annual_regional_avg example_rows)
                (Regional.mk 0 Arctic None None None))
             (annual_regional_avg example_rows)) as Hin
    by (apply nth_In; vm_compute; lia).
  eapply (baseline_anomalies_average_to_zero example_rows _ _ Hin).
  vm_compute. reflexivity.
Defined.

Lemma decadal_table_uses_the_assigned_decade_witness :
  heap example_world !! 0%nat = Some example_frame /\
  exists w' res,
    analyze_temperature_trends 0 example_world = (w', inr res) /\
    In (Decadal.mk 1960 TropicalS
          (mean (temps (decade_cell 1960 TropicalS example_rows))))
       (tr_decadal_avg res).
Proof.
  split; [reflexivity|].
  destruct (decadal_table_uses_the_assigned_decade example_world 0%nat
              example_frame eq_refl) as (w' & res & Hrun & Hrows).
  exists w', res. split; [exact Hrun|]. apply Hrows. cbn [Decadal.decade
    Decadal.region Decadal.temperature_c]. split; [|reflexivity].
  exists (example_record station_b 1962 7 280). split; [cbn; tauto|reflexivity].
Defined.

Lemma detector_counts_do_not_depend_on_the_trend_stage_witness :
  heap example_world !! 0%nat = Some example_frame /\
  snd (analyze_extreme_temperatures 0
         (fst (analyze_temperature_trends 0 example_world)))
  = snd (analyze_extreme_temperatures 0 example_world).
Proof.
  split; [reflexivity|].
  apply (detector_counts_do_not_depend_on_the_trend_stage example_world 0%nat
           example_frame eq_refl).
Defined.

Lemma run_analysis_fills_the_store_witness :
  exists w' res,
    run_analysis example_to_datetime example_temperature [station_a; station_b]
      empty_world = (w', inr res) /\
    get_table "extreme_counts" w'
    = inr (ExtremeCounts
             (extreme_counts
                (rows (run_data example_dates example_temperature
                         [station_a; station_b] empty_world)))).
Proof.
  destruct (run_analysis_fills_the_store example_to_datetime example_temperature
              [station_a; station_b] empty_world example_dates eq_refl)
    as (w' & res & Hrun & _ & _ & _ & _ & _ & _ & Hx & _).
  exists w', res. split; [exact Hrun|exact Hx].
Defined.

Lemma failed_run_leaves_the_store_as_it_was_witness :
  exists w',
    run_analysis example_to_datetime bad_temperature [station_a] empty_world
    = (w', inl ValueError) /\
    results_dir w' = results_dir empty_world.
Proof.
  destruct (failed_run_leaves_the_store_as_it_was example_to_datetime
              bad_temperature [station_a] empty_world eq_refl)
    as (w' & Hrun & Hdir & _).
  exists w'. split; [exact Hrun|exact Hdir].
Defined.

Lemma failed_download_replaces_the_persisted_data_witness :
  downloaded empty_world = false /\
  analysed_table example_temperature empty_world = example_temperature.
Proof.
  split; [reflexivity|].
  apply (failed_download_replaces_the_persisted_data example_temperature
           [station_a; station_b] empty_world eq_refl).
Defined.

Lemma run_on_the_generated_sample_succeeds_witness :
  exists w' res,
    run_analysis example_to_datetime (generated_temperature example_draws)
      (generated_metadata example_draws) empty_world
    = (w', inr res) /\
    forall file, In file required_files ->
      exists t, get_table (stem file) w' = inr t.
Proof.
  apply (run_on_the_generated_sample_succeeds example_to_datetime example_draws
           empty_world).
  - intros y m _ Hm. unfold example_to_datetime.
    replace (1 <=? m) with true by (symmetry; apply Z.leb_le; lia).
    replace (m <=? 12) with true by (symmetry; apply Z.leb_le; lia).
    discriminate.
  - left. reflexivity.
Defined.
